(** * unioauth: the OAuth 2.0 authorization-code flow, embedded in Rocq

    A shallow embedding of the JavaScript sources
      - utils/errors.js     (OAuthError)
      - utils/state.js      (generateState, validateState)
      - utils/http.js       (request)
      - providers/base.js   (OAuthProvider: constructor, getRedirectUrl,
                             handleCallback, _extractParams, _exchangeCode)
      - providers/github.js, google.js, discord.js  (fetchUser of each variant)
      - createOAuth.js      (PROVIDERS, createOAuth)

    JavaScript values are an inductive type with the language's coercions
    (ToBoolean, ToString) written out; exceptions are an error monad; the
    network is an oracle whose every call is recorded in a log that the
    monad threads through the program.

    Strings are byte strings, their UTF-8 form, which every string without
    an unpaired surrogate has.  The state validator is embedded a second
    time in [Utf16], over strings as sequences of UTF-16 code units, where
    it meets the strings that have no such form. *)

From Stdlib Require Import ZArith String Ascii List Bool Lia DecimalString.
From Stdlib Require Strings.Byte.
Import ListNotations.
Open Scope string_scope.
Set Warnings "-register-all".

(* ================================================================== *)
(** ** JavaScript values *)
(* ================================================================== *)

(** The values the program handles: what [JSON.parse] yields, plus
    [undefined].  A string is its UTF-8 byte sequence ([Buffer.from] of a
    well-formed string: one without unpaired surrogates); [Num n] is the
    integral number [n] (identifiers, status codes), which the language
    represents exactly up to [2^53]: fractional numbers and NaN do not
    occur in the modelled paths.  An object is its property list in
    insertion order. *)
Inductive value : Type :=
| Undefined
| Null
| Bool (b : bool)
| Num (n : Z)
| Str (s : string)
| Arr (items : list value)
| Obj (fields : list (string * value)).

(** [!!v] *)
Definition ToBoolean (v : value) : bool :=
  match v with
  | Undefined | Null => false
  | Bool b => b
  | Num n => negb (n =? 0)%Z
  | Str s => negb (s =? "")
  | Arr _ | Obj _ => true
  end.

(** [Array.prototype.join] on already stringified elements. *)
Fixpoint join (sep : string) (l : list string) : string :=
  match l with
  | [] => ""
  | [x] => x
  | x :: rest => x ++ sep ++ join sep rest
  end.

(** [String(v)] and template-literal interpolation.  A number prints as
    its decimal numeral, which is what the language prints for an integer
    it represents exactly (of magnitude below [2^53]).  An array prints
    its elements separated by commas, with [null] and [undefined] elements
    printed as the empty string; a plain object prints as
    [[object Object]]. *)
Fixpoint ToString (v : value) : string :=
  match v with
  | Undefined => "undefined"
  | Null => "null"
  | Bool true => "true"
  | Bool false => "false"
  | Num n => NilZero.string_of_int (Z.to_int n)
  | Str s => s
  | Arr items =>
      join "," (map (fun x => match x with
                              | Undefined | Null => ""
                              | _ => ToString x
                              end) items)
  | Obj _ => "[object Object]"
  end.

(** [a || b] *)
Definition js_or (a b : value) : value := if ToBoolean a then a else b.
Infix "|||" := js_or (at level 50, left associativity).

(** [typeof v === 'string'] *)
Definition is_string (v : value) : bool :=
  match v with Str _ => true | _ => false end.

(** [typeof v === 'object'] ([null] included, as in the language). *)
Definition typeof_object (v : value) : bool :=
  match v with Null | Arr _ | Obj _ => true | _ => false end.

(** Property list of an object: first binding of a key. *)
Fixpoint lookup (k : string) (fields : list (string * value)) : option value :=
  match fields with
  | [] => None
  | (k', v) :: rest => if k' =? k then Some v else lookup k rest
  end.

(** [o[k] = v]: replaces the binding in place or appends a new one. *)
Fixpoint obj_set {A} (k : string) (v : A) (fields : list (string * A))
  : list (string * A) :=
  match fields with
  | [] => [(k, v)]
  | (k', v') :: rest =>
      if k' =? k then (k, v) :: rest else (k', v') :: obj_set k v rest
  end.

(* ================================================================== *)
(** ** utils/errors.js *)
(* ================================================================== *)

Module OAuthError.
Record t : Type := mk {
  message : string;
  name : string;
  provider : value;
  code : value
}.

(** [new OAuthError(message, provider, code)].  [Error]'s constructor
    stringifies the message; an [undefined] message gives the empty
    string. *)
Definition new (msg prov cd : value) : t :=
  {| message := match msg with Undefined => "" | _ => ToString msg end;
     name := "OAuthError";
     provider := prov ||| Null;
     code := cd ||| Str "OAUTH_ERROR" |}.
End OAuthError.

(** What a [throw] carries: an [OAuthError], or one of the language's own
    errors ([TypeError], [SyntaxError], [RangeError], [Error]) with its
    message. *)
Inductive thrown : Type :=
| ThrowOAuth (e : OAuthError.t)
| ThrowJs (kind : string) (msg : string).

(** Result of a call that may throw. *)
Inductive outcome (A : Type) : Type :=
| Returns (a : A)
| Throws (t : thrown).
Arguments Returns {A} a.
Arguments Throws {A} t.

(** [v.k]: a property read throws on [undefined] and [null]; on the other
    values it yields the binding, or [undefined].  An object is read by
    its own properties: none of the keys the program reads is a property
    of [Object.prototype], nor a built-in property of a string, number,
    boolean or array. *)
Definition get_prop (v : value) (k : string) : outcome value :=
  match v with
  | Undefined =>
      Throws (ThrowJs "TypeError" ("Cannot read properties of undefined (reading '" ++ k ++ "')"))
  | Null =>
      Throws (ThrowJs "TypeError" ("Cannot read properties of null (reading '" ++ k ++ "')"))
  | Obj fields => Returns (match lookup k fields with Some x => x | None => Undefined end)
  | _ => Returns Undefined
  end.

(** [v?.k] *)
Definition get_prop_opt (v : value) (k : string) : value :=
  match v with
  | Obj fields => match lookup k fields with Some x => x | None => Undefined end
  | _ => Undefined
  end.

(* ================================================================== *)
(** ** utils/state.js *)
(* ================================================================== *)

Definition byte_val (b : Byte.byte) : Z := Z.of_N (Byte.to_N b).

(** [Buffer.from(s)]: the bytes of the string, for a string that stands
    for its UTF-8 form.  [Utf16.Buffer_from] is the encoder itself. *)
Definition Buffer_from (s : string) : list Byte.byte := list_byte_of_string s.

(** The accumulator loop of [crypto.timingSafeEqual], a built-in of the
    Node.js runtime (it calls OpenSSL's [CRYPTO_memcmp]): every pair of
    bytes is XORed and ORed into the accumulator; the second component
    counts the pairs visited. *)
Fixpoint memcmp_acc (a b : list Byte.byte) (acc : Z) (steps : nat) : Z * nat :=
  match a, b with
  | x :: a', y :: b' =>
      memcmp_acc a' b' (Z.lor acc (Z.lxor (byte_val x) (byte_val y))) (S steps)
  | _, _ => (acc, steps)
  end.

(** [crypto.timingSafeEqual(a, b)]: a [RangeError] on buffers of different
    lengths, else whether the accumulator stayed zero. *)
Definition timingSafeEqual (a b : list Byte.byte) : outcome bool :=
  if negb (length a =? length b)%nat
  then Throws (ThrowJs "RangeError" "Input buffers must have the same byte length")
  else Returns (fst (memcmp_acc a b 0%Z 0%nat) =? 0)%Z.

Definition STATE_MISSING : OAuthError.t :=
  OAuthError.new (Str "State parameter missing — potential CSRF attack")
                Null (Str "STATE_MISSING").

Definition STATE_MISMATCH : OAuthError.t :=
  OAuthError.new (Str "State mismatch — potential CSRF attack")
                Null (Str "STATE_MISMATCH").

Definition validateState (expected received : value) : outcome unit :=
  if negb (ToBoolean expected) || negb (ToBoolean received)
  then Throws (ThrowOAuth STATE_MISSING)
  else
    let expectedBuf := Buffer_from (ToString expected) in
    let receivedBuf := Buffer_from (ToString received) in
    if negb (length expectedBuf =? length receivedBuf)%nat
    then Throws (ThrowOAuth STATE_MISMATCH)
    else
      match timingSafeEqual expectedBuf receivedBuf with
      | Throws t => Throws t
      | Returns eq => if negb eq then Throws (ThrowOAuth STATE_MISMATCH)
                      else Returns tt
      end.

(* ================================================================== *)
(** ** utils/state.js on UTF-16 strings *)
(* ================================================================== *)

(** A string of the language is a sequence of 16-bit code units, and a
    surrogate code unit may stand in it unpaired.  [Buffer.from(string)]
    encodes to UTF-8, which has no form for an unpaired surrogate: each
    one becomes U+FFFD.  This module has [validateState] over such
    strings. *)
Module Utf16.

(** The code units of a string, each below [2^16]. *)
Definition jsstring : Type := list N.

Definition high_surrogate (u : N) : bool := ((0xD800 <=? u) && (u <=? 0xDBFF))%N.

Definition low_surrogate (u : N) : bool := ((0xDC00 <=? u) && (u <=? 0xDFFF))%N.

(** The byte of a number below 256. *)
Definition octet (n : N) : Byte.byte :=
  match Byte.of_N n with Some b => b | None => Byte.x00 end.

(** The UTF-8 form of a code point: one to four bytes. *)
Definition utf8 (c : N) : list Byte.byte :=
  (if c <? 0x80 then [octet c]
   else if c <? 0x800 then [octet (0xC0 + c / 0x40); octet (0x80 + c mod 0x40)]
   else if c <? 0x10000 then
     [octet (0xE0 + c / 0x1000); octet (0x80 + (c / 0x40) mod 0x40);
      octet (0x80 + c mod 0x40)]
   else
     [octet (0xF0 + c / 0x40000); octet (0x80 + (c / 0x1000) mod 0x40);
      octet (0x80 + (c / 0x40) mod 0x40); octet (0x80 + c mod 0x40)])%N.

(** U+FFFD, the replacement character. *)
Definition REPLACEMENT : N := 0xFFFD%N.

(** [Buffer.from(s)], with the default encoding ['utf8']: a high surrogate
    followed by a low one is the code point of the pair; any other
    surrogate is replaced. *)
Fixpoint Buffer_from (s : jsstring) : list Byte.byte :=
  match s with
  | [] => []
  | u :: rest =>
      if high_surrogate u then
        match rest with
        | l :: rest' =>
            if low_surrogate l
            then (utf8 (0x10000 + (u - 0xD800) * 0x400 + (l - 0xDC00))%N
                  ++ Buffer_from rest')%list
            else (utf8 REPLACEMENT ++ Buffer_from rest)%list
        | [] => utf8 REPLACEMENT
        end
      else if low_surrogate u then (utf8 REPLACEMENT ++ Buffer_from rest)%list
      else (utf8 u ++ Buffer_from rest)%list
  end.

(** The code units of a string of ASCII characters. *)
Definition of_ascii (s : string) : jsstring := map N_of_ascii (list_ascii_of_string s).

(** An argument of [validateState]: a string, or [None] for [undefined]. *)
Definition ToBoolean (v : option jsstring) : bool :=
  match v with
  | Some (_ :: _) => true
  | _ => false
  end.

Definition ToString (v : option jsstring) : jsstring :=
  match v with
  | Some s => s
  | None => of_ascii "undefined"
  end.

Definition validateState (expected received : option jsstring) : outcome unit :=
  if negb (ToBoolean expected) || negb (ToBoolean received)
  then Throws (ThrowOAuth STATE_MISSING)
  else
    let expectedBuf := Buffer_from (ToString expected) in
    let receivedBuf := Buffer_from (ToString received) in
    if negb (length expectedBuf =? length receivedBuf)%nat
    then Throws (ThrowOAuth STATE_MISMATCH)
    else
      match timingSafeEqual expectedBuf receivedBuf with
      | Throws t => Throws t
      | Returns eq => if negb eq then Throws (ThrowOAuth STATE_MISMATCH)
                      else Returns tt
      end.

(** A string without unpaired surrogates: what [s.isWellFormed()] tests. *)
Fixpoint isWellFormed (s : jsstring) : bool :=
  match s with
  | [] => true
  | u :: rest =>
      if high_surrogate u then
        match rest with
        | l :: rest' => low_surrogate l && isWellFormed rest'
        | [] => false
        end
      else negb (low_surrogate u) && isWellFormed rest
  end.

(** Every code unit fits 16 bits. *)
Definition code_units (s : jsstring) : Prop := Forall (fun u => (u < 0x10000)%N) s.

(** [buf.toString()], the way back, on the bytes of a well-formed string:
    the length of a sequence is read off its first byte, and a code point
    above U+FFFF gives its surrogate pair. *)
Fixpoint Buffer_toString (b : list Byte.byte) : jsstring :=
  match b with
  | [] => []
  | b1 :: r1 =>
      let n1 := Byte.to_N b1 in
      if (n1 <? 0x80)%N then n1 :: Buffer_toString r1
      else
        match r1 with
        | [] => []
        | b2 :: r2 =>
            let n2 := Byte.to_N b2 in
            if (n1 <? 0xE0)%N
            then ((n1 - 0xC0) * 0x40 + (n2 - 0x80))%N :: Buffer_toString r2
            else
              match r2 with
              | [] => []
              | b3 :: r3 =>
                  let n3 := Byte.to_N b3 in
                  if (n1 <? 0xF0)%N
                  then ((n1 - 0xE0) * 0x1000 + (n2 - 0x80) * 0x40 + (n3 - 0x80))%N
                       :: Buffer_toString r3
                  else
                    match r3 with
                    | [] => []
                    | b4 :: r4 =>
                        let n4 := Byte.to_N b4 in
                        let c := ((n1 - 0xF0) * 0x40000 + (n2 - 0x80) * 0x1000
                                  + (n3 - 0x80) * 0x40 + (n4 - 0x80) - 0x10000)%N in
                        (0xD800 + c / 0x400)%N :: (0xDC00 + c mod 0x400)%N
                        :: Buffer_toString r4
                    end
              end
        end
  end.

End Utf16.

(* ================================================================== *)
(** ** Exceptions and the network log *)
(* ================================================================== *)

Definition obind {A B} (m : outcome A) (k : A -> outcome B) : outcome B :=
  match m with
  | Returns a => k a
  | Throws t => Throws t
  end.

Notation "x <-- m ;; k" := (obind m (fun x => k))
  (at level 61, m at next level, right associativity).

(** One call of [fetch(url, init)]. *)
Record FetchRequest : Type := {
  rq_url : string;
  rq_method : option string;
  rq_headers : list (string * string);
  rq_body : option string
}.

(** A [Response]: status line, the content-type header
    ([response.headers.get('content-type')], [None] for [null]), the body
    text, and what [JSON.parse] makes of that text ([None] when it throws
    a [SyntaxError]). *)
Record Response : Type := {
  status : Z;
  content_type : option string;
  text : string;
  json : option value
}.

(** [response.ok] *)
Definition ok (r : Response) : bool :=
  ((200 <=? status r) && (status r <=? 299))%Z.

(** What the promise of [fetch] settles to: rejected with an error that
    has a [message], or resolved with a response. *)
Inductive FetchResult : Type :=
| Rejects (err_message : string)
| Resolves (r : Response).

(** The world outside: an answer for every request, which may depend on
    the requests made before it. *)
Definition Network : Type := list FetchRequest -> FetchRequest -> FetchResult.

(** Computations that throw and talk to the network: the log of requests
    issued so far goes in, the log with the new requests comes out. *)
Definition M (A : Type) : Type :=
  list FetchRequest -> outcome A * list FetchRequest.

Definition ret {A} (a : A) : M A := fun log => (Returns a, log).

Definition throw {A} (t : thrown) : M A := fun log => (Throws t, log).

Definition bind {A B} (m : M A) (k : A -> M B) : M B :=
  fun log =>
    match m log with
    | (Returns a, log') => k a log'
    | (Throws t, log') => (Throws t, log')
    end.

Definition lift {A} (o : outcome A) : M A := fun log => (o, log).

(** [try { body } catch (e) { handler(e) }] *)
Definition try_catch {A} (body : M A) (handler : thrown -> M A) : M A :=
  fun log =>
    match body log with
    | (Returns a, log') => (Returns a, log')
    | (Throws t, log') => handler t log'
    end.

Notation "x <- m ; k" := (bind m (fun x => k))
  (at level 61, m at next level, right associativity).

(** [await fetch(url, init)] against the network [net]. *)
Definition fetch (net : Network) (rq : FetchRequest) : M Response :=
  fun log =>
    match net log rq with
    | Rejects msg => (Throws (ThrowJs "TypeError" msg), (log ++ [rq])%list)
    | Resolves r => (Returns r, (log ++ [rq])%list)
    end.

(* ================================================================== *)
(** ** URLSearchParams *)
(* ================================================================== *)

Module URLSearchParams.

(** The list of name-value pairs of a [URLSearchParams] object. *)
Definition t : Type := list (string * string).

(** [new URLSearchParams({k: v, ...})]: every value is stringified. *)
Definition of_record (fields : list (string * value)) : t :=
  map (fun kv => (fst kv, ToString (snd kv))) fields.

(** [params.get(k)]: the first value of the name, or [null]. *)
Fixpoint get (k : string) (l : t) : value :=
  match l with
  | [] => Null
  | (k', v) :: rest => if k' =? k then Str v else get k rest
  end.

(** [params.set(k, v)]: the first pair of the name takes the value and the
    other pairs of the name go; a new name is appended. *)
Fixpoint set (k v : string) (l : t) : t :=
  match l with
  | [] => [(k, v)]
  | (k', v') :: rest =>
      if k' =? k
      then (k, v) :: filter (fun p => negb (fst p =? k)) rest
      else (k', v') :: set k v rest
  end.

(** Bytes the application/x-www-form-urlencoded serializer leaves as they
    are: [*], [-], [.], [_], digits and ASCII letters. *)
Definition is_unreserved (c : ascii) : bool :=
  let n := N_of_ascii c in
  ((n =? 42) || (n =? 45) || (n =? 46) || (n =? 95)
   || ((48 <=? n) && (n <=? 57))
   || ((65 <=? n) && (n <=? 90))
   || ((97 <=? n) && (n <=? 122)))%N.

Definition hex_digit (n : N) : ascii :=
  if (n <? 10)%N then ascii_of_N (48 + n) else ascii_of_N (55 + n).

(** The serializer on one byte: a space becomes [+], a reserved byte its
    percent-encoding in upper-case hexadecimal. *)
Definition encode_byte (c : ascii) : string :=
  if (c =? " ")%char then "+"
  else if is_unreserved c then String c ""
  else String "%" (String (hex_digit (N_of_ascii c / 16))
                  (String (hex_digit (N_of_ascii c mod 16)) "")).

Fixpoint encode (s : string) : string :=
  match s with
  | EmptyString => ""
  | String c rest => encode_byte c ++ encode rest
  end.

(** [params.toString()] *)
Definition toString (l : t) : string :=
  join "&" (map (fun kv => encode (fst kv) ++ "=" ++ encode (snd kv)) l).

Definition hex_val (c : ascii) : option N :=
  let n := N_of_ascii c in
  if ((48 <=? n) && (n <=? 57))%N then Some (n - 48)%N
  else if ((65 <=? n) && (n <=? 70))%N then Some (n - 55)%N
  else if ((97 <=? n) && (n <=? 102))%N then Some (n - 87)%N
  else None.

(** Percent-decoding: [%] followed by two hexadecimal digits is the byte
    they denote; every other byte stands for itself.  The bytes are the
    UTF-8 form of the decoded string, so the escapes are taken to spell
    well-formed UTF-8, as those of the serializer do. *)
Fixpoint percent_decode (s : string) : string :=
  match s with
  | EmptyString => ""
  | String c tl =>
      if (c =? "%")%char then
        match tl with
        | String h (String l rest) =>
            match hex_val h, hex_val l with
            | Some a, Some b => String (ascii_of_N (16 * a + b)) (percent_decode rest)
            | _, _ => String c (percent_decode tl)
            end
        | _ => String c (percent_decode tl)
        end
      else String c (percent_decode tl)
  end.

Fixpoint plus_to_space (s : string) : string :=
  match s with
  | EmptyString => ""
  | String c rest =>
      String (if (c =? "+")%char then " "%char else c) (plus_to_space rest)
  end.

(** The pieces of [s] between occurrences of [sep]. *)
Fixpoint split (sep : ascii) (s : string) : list string :=
  match s with
  | EmptyString => [""]
  | String c rest =>
      if (c =? sep)%char then "" :: split sep rest
      else match split sep rest with
           | h :: tl => String c h :: tl
           | [] => [String c ""]
           end
  end.

(** [s] cut at its first [sep]: what is before, and what is after (the
    empty string when there is no [sep]). *)
Fixpoint cut (sep : ascii) (s : string) : string * string :=
  match s with
  | EmptyString => ("", "")
  | String c rest =>
      if (c =? sep)%char then ("", rest)
      else let (n, v) := cut sep rest in (String c n, v)
  end.

Definition decode (s : string) : string := percent_decode (plus_to_space s).

(** The application/x-www-form-urlencoded parser: empty pieces between
    [&] are skipped. *)
Definition parse_pairs (s : string) : t :=
  map (fun piece => let (n, v) := cut "=" piece in (decode n, decode v))
      (filter (fun piece => negb (piece =? "")) (split "&" s)).

(** [new URLSearchParams(s)]: one leading [?] is dropped. *)
Definition parse (s : string) : t :=
  match s with
  | String "?" rest => parse_pairs rest
  | _ => parse_pairs s
  end.

End URLSearchParams.

(** [Object.fromEntries(pairs)]: a later pair of a key overwrites the
    earlier one. *)
Definition fromEntries (pairs : URLSearchParams.t) : value :=
  Obj (fold_left (fun o kv => obj_set (fst kv) (Str (snd kv)) o) pairs []).

(* ================================================================== *)
(** ** utils/http.js *)
(* ================================================================== *)

(** The [options] of [request]: the fields of a [RequestInit] the callers
    set. *)
Record RequestInit : Type := {
  method : option string;
  headers : list (string * string);
  body : option string
}.

(** [hay.includes(needle)] *)
Fixpoint includes (hay needle : string) : bool :=
  prefix needle hay ||
  match hay with
  | EmptyString => false
  | String _ rest => includes rest needle
  end.

(** [a || b] where evaluating an operand may throw: [b] is evaluated only
    when [a] is falsy. *)
Definition or_else (a b : outcome value) : outcome value :=
  x <-- a ;; if ToBoolean x then Returns x else b.

Definition thrown_message (t : thrown) : string :=
  match t with
  | ThrowOAuth e => OAuthError.message e
  | ThrowJs _ msg => msg
  end.

(** [{ 'User-Agent': 'unioauth', ...h }] *)
Definition with_user_agent (h : list (string * string)) : list (string * string) :=
  fold_left (fun acc kv => obj_set (fst kv) (snd kv) acc) h
            [("User-Agent", "unioauth")].

(** What [request(url, options)] hands to [fetch]: [{ ...options, headers }]. *)
Definition sent_request (url : string) (options : RequestInit) : FetchRequest :=
  {| rq_url := url; rq_method := method options;
     rq_headers := with_user_agent (headers options); rq_body := body options |}.

Definition request (net : Network) (url : string) (options : RequestInit)
  : M value :=
  response <-
    try_catch
      (fetch net (sent_request url options))
      (fun err =>
         throw (ThrowOAuth (OAuthError.new
           (Str ("Network request to " ++ url ++ " failed: " ++ thrown_message err))
           Null (Str "NETWORK_ERROR")))) ;
  let contentType :=
    match content_type response with Some s => Str s | None => Null end
    ||| Str "" in
  data <-
    (if includes (ToString contentType) "application/json"
     then match json response with
          | Some v => ret v
          | None => throw (ThrowJs "SyntaxError" "Unexpected token in JSON")
          end
     else match json response with
          | Some v => ret v
          | None => ret (fromEntries (URLSearchParams.parse (text response)))
          end) ;
  if negb (ok response)
  then
    message <-
      lift (or_else (or_else (or_else (get_prop data "error_description")
                                      (get_prop data "message"))
                             (get_prop data "error"))
                    (Returns (Str ("HTTP " ++ ToString (Num (status response)))))) ;
    throw (ThrowOAuth (OAuthError.new message Null (Str "HTTP_ERROR")))
  else ret data.

(* ================================================================== *)
(** ** providers/base.js *)
(* ================================================================== *)

(** The normalized user object. [accessToken] is [undefined] (the property
    is not there) until [handleCallback] attaches it. *)
Module User.
Record t : Type := mk {
  provider : value;
  id : value;
  email : value;
  name : value;
  avatar : value;
  raw : value;
  accessToken : value
}.

(** [user.accessToken = tok] *)
Definition set_accessToken (u : t) (tok : value) : t :=
  {| provider := provider u; id := id u; email := email u; name := name u;
     avatar := avatar u; raw := raw u; accessToken := tok |}.
End User.

(** The [options] argument of [getRedirectUrl] and [handleCallback];
    [scopes] is [None] when the property is absent. *)
Module Options.
Record t : Type := mk {
  scopes : option (list string);
  state : value
}.

(** [{}] *)
Definition empty : t := {| scopes := None; state := Undefined |}.
End Options.

(** The subclass contract: the getters and the methods a provider class
    supplies. *)
Record Provider : Type := {
  name : string;
  authorizationUrl : string;
  tokenUrl : string;
  defaultScopes : list string;
  fetchUser : Network -> value -> M User.t;
  addAuthParams : URLSearchParams.t -> Options.t -> URLSearchParams.t
}.

(** The configuration object handed to the constructor. *)
Module Config.
Record t : Type := mk {
  clientId : value;
  clientSecret : value;
  redirectUri : value;
  scopes : option (list string)
}.
End Config.

(** The parameters [_extractParams] returns. *)
Module Params.
Record t : Type := mk {
  code : value;
  state : value;
  error : value;
  errorDescription : value
}.
End Params.

(** The request objects [_extractParams] looks into. *)
Module Req.

(** [req.headers]: a Web [Headers] object with its [get], or anything
    else (a plain object, or [undefined]). *)
Inductive Headers : Type :=
| WebHeaders (get : string -> value)
| PlainHeaders (h : value).

(** [nextUrl] is [None] when [req.nextUrl] is falsy, else the
    [searchParams] of that URL. *)
Record t : Type := mk {
  query : value;
  nextUrl : option URLSearchParams.t;
  url : value;
  headers : Headers
}.
End Req.

(** [new URL(input, base).searchParams]; [None] when the constructor
    throws on an invalid URL. *)
Definition UrlParser : Type := string -> string -> option URLSearchParams.t.

Module OAuthProvider.

(** An instance: its class and the fields the constructor assigns. *)
Record t : Type := mk {
  cls : Provider;
  clientId : value;
  clientSecret : value;
  redirectUri : value;
  scopes : list string
}.

Definition constructor (P : Provider) (config : Config.t) : outcome t :=
  if negb (ToBoolean (Config.clientId config)) then
    Throws (ThrowOAuth (OAuthError.new (Str "clientId is required")
                                       (Str (name P)) (Str "CONFIG_ERROR")))
  else if negb (ToBoolean (Config.clientSecret config)) then
    Throws (ThrowOAuth (OAuthError.new (Str "clientSecret is required")
                                       (Str (name P)) (Str "CONFIG_ERROR")))
  else if negb (ToBoolean (Config.redirectUri config)) then
    Throws (ThrowOAuth (OAuthError.new (Str "redirectUri is required")
                                       (Str (name P)) (Str "CONFIG_ERROR")))
  else
    Returns {| cls := P;
               clientId := Config.clientId config;
               clientSecret := Config.clientSecret config;
               redirectUri := Config.redirectUri config;
               scopes := match Config.scopes config with
                         | Some l => l
                         | None => defaultScopes P
                         end |}.

(** The [URLSearchParams] object [getRedirectUrl] serializes. *)
Definition redirectParams (self : t) (options : Options.t) : URLSearchParams.t :=
  let scopes := match Options.scopes options with
                | Some l => l
                | None => scopes self
                end in
  let params := URLSearchParams.of_record
                  [("client_id", clientId self);
                   ("redirect_uri", redirectUri self);
                   ("response_type", Str "code");
                   ("scope", Str (join " " scopes))] in
  let params := if ToBoolean (Options.state options)
                then URLSearchParams.set "state" (ToString (Options.state options)) params
                else params in
  addAuthParams (cls self) params options.

Definition getRedirectUrl (self : t) (options : Options.t) : string :=
  authorizationUrl (cls self) ++ "?" ++ URLSearchParams.toString (redirectParams self options).

Definition _extractParams (parseUrl : UrlParser) (self : t) (req : Req.t)
  : outcome Params.t :=
  if ToBoolean (Req.query req) && typeof_object (Req.query req) then
    Returns {| Params.code := get_prop_opt (Req.query req) "code" ||| Null;
               Params.state := get_prop_opt (Req.query req) "state" ||| Null;
               Params.error := get_prop_opt (Req.query req) "error" ||| Null;
               Params.errorDescription :=
                 get_prop_opt (Req.query req) "error_description" ||| Null |}
  else
    match Req.nextUrl req with
    | Some sp =>
        Returns {| Params.code := URLSearchParams.get "code" sp;
                   Params.state := URLSearchParams.get "state" sp;
                   Params.error := URLSearchParams.get "error" sp;
                   Params.errorDescription :=
                     URLSearchParams.get "error_description" sp |}
    | None =>
        if ToBoolean (Req.url req) then
          let host :=
            match Req.headers req with
            | Req.WebHeaders get => get "host"
            | Req.PlainHeaders h => get_prop_opt h "host"
            end ||| Str "localhost" in
          match parseUrl (ToString (Req.url req)) ("http://" ++ ToString host) with
          | None => Throws (ThrowJs "TypeError" "Invalid URL")
          | Some sp =>
              Returns {| Params.code := URLSearchParams.get "code" sp;
                         Params.state := URLSearchParams.get "state" sp;
                         Params.error := URLSearchParams.get "error" sp;
                         Params.errorDescription :=
                           URLSearchParams.get "error_description" sp |}
          end
        else
          Throws (ThrowOAuth (OAuthError.new
            (Str ("Unable to extract query parameters from the request object. " ++
                  "Pass a standard Node.js/Web request, or an Express/Fastify/Next.js request."))
            (Str (name (cls self))) (Str "INVALID_REQUEST")))
    end.

Definition _exchangeCode (net : Network) (self : t) (code : value) : M value :=
  let body := URLSearchParams.of_record
                [("client_id", clientId self);
                 ("client_secret", clientSecret self);
                 ("code", code);
                 ("redirect_uri", redirectUri self);
                 ("grant_type", Str "authorization_code")] in
  data <- request net (tokenUrl (cls self))
            {| method := Some "POST";
               headers := [("Content-Type", "application/x-www-form-urlencoded");
                           ("Accept", "application/json")];
               body := Some (URLSearchParams.toString body) |} ;
  err <- lift (get_prop data "error") ;
  if ToBoolean err then
    description <- lift (get_prop data "error_description") ;
    throw (ThrowOAuth (OAuthError.new
      (description ||| Str ("Token exchange failed: " ++ ToString err))
      (Str (name (cls self))) (Str "TOKEN_ERROR")))
  else
    access_token <- lift (get_prop data "access_token") ;
    if negb (ToBoolean access_token) then
      throw (ThrowOAuth (OAuthError.new
        (Str "No access token received from provider")
        (Str (name (cls self))) (Str "TOKEN_ERROR")))
    else ret data.

Definition handleCallback (net : Network) (parseUrl : UrlParser) (self : t)
    (req : Req.t) (options : Options.t) : M User.t :=
  params <- lift (_extractParams parseUrl self req) ;
  if ToBoolean (Params.error params) then
    throw (ThrowOAuth (OAuthError.new
      (Params.errorDescription params
       ||| Str ("Authorization denied: " ++ ToString (Params.error params)))
      (Str (name (cls self))) (Params.error params)))
  else if negb (ToBoolean (Params.code params)) then
    throw (ThrowOAuth (OAuthError.new
      (Str "No authorization code received in callback")
      (Str (name (cls self))) (Str "MISSING_CODE")))
  else
    _ <- (if ToBoolean (Options.state options)
          then lift (validateState (Options.state options) (Params.state params))
          else ret tt) ;
    tokenData <- _exchangeCode net self (Params.code params) ;
    access_token <- lift (get_prop tokenData "access_token") ;
    user <- fetchUser (cls self) net access_token ;
    access_token' <- lift (get_prop tokenData "access_token") ;
    ret (User.set_accessToken user access_token').

(** The base class's own [defaultScopes], [fetchUser] and
    [addAuthParams], for a subclass that does not override them. *)
Definition defaultScopes : list string := [].

Definition fetchUser (_net : Network) (_accessToken : value) : M User.t :=
  throw (ThrowJs "Error" "Provider must implement fetchUser()").

Definition addAuthParams (_params : URLSearchParams.t) (_options : Options.t)
  : URLSearchParams.t := _params.

End OAuthProvider.

(* ================================================================== *)
(** ** providers/github.js, providers/google.js, providers/discord.js *)
(* ================================================================== *)

(** [arr.find(pred)]: the first element the predicate accepts, or
    [undefined]; the predicate may throw. *)
Fixpoint find_first (pred : value -> outcome bool) (items : list value)
  : outcome value :=
  match items with
  | [] => Returns Undefined
  | x :: rest =>
      b <-- pred x ;;
      if b then Returns x else find_first pred rest
  end.

(** [v.find(pred)]: only an array has the method. *)
Definition array_find (v : value) (pred : value -> outcome bool)
  : outcome value :=
  match v with
  | Arr items => find_first pred items
  | Undefined =>
      Throws (ThrowJs "TypeError" "Cannot read properties of undefined (reading 'find')")
  | Null =>
      Throws (ThrowJs "TypeError" "Cannot read properties of null (reading 'find')")
  | _ => Throws (ThrowJs "TypeError" "emails.find is not a function")
  end.

(** [v.startsWith(p)]: only a string has the method. *)
Definition startsWith (v : value) (p : string) : outcome bool :=
  match v with
  | Str s => Returns (prefix p s)
  | Undefined =>
      Throws (ThrowJs "TypeError" "Cannot read properties of undefined (reading 'startsWith')")
  | Null =>
      Throws (ThrowJs "TypeError" "Cannot read properties of null (reading 'startsWith')")
  | _ => Throws (ThrowJs "TypeError" "profile.avatar.startsWith is not a function")
  end.

Module GitHubProvider.

Definition name : string := "github".
Definition authorizationUrl : string := "https://github.com/login/oauth/authorize".
Definition tokenUrl : string := "https://github.com/login/oauth/access_token".
Definition defaultScopes : list string := ["read:user"; "user:email"].

(** [(e) => e.primary && e.verified], as [find] reads its result. *)
Definition primary_and_verified (e : value) : outcome bool :=
  p <-- get_prop e "primary" ;;
  if ToBoolean p
  then v <-- get_prop e "verified" ;; Returns (ToBoolean v)
  else Returns false.

(** [(e) => e.verified] *)
Definition verified (e : value) : outcome bool :=
  v <-- get_prop e "verified" ;; Returns (ToBoolean v).

(** [primary?.email || emails.find((e) => e.verified)?.email || null] *)
Definition pick_email (emails primary : value) : outcome value :=
  first <-- or_else (Returns (get_prop_opt primary "email"))
                    (e <-- array_find emails verified ;;
                     Returns (get_prop_opt e "email")) ;;
  Returns (first ||| Null).

Definition fetchUser (net : Network) (accessToken : value) : M User.t :=
  let headers := [("Authorization", "Bearer " ++ ToString accessToken);
                  ("Accept", "application/vnd.github+json")] in
  profile <- request net "https://api.github.com/user"
               {| method := None; headers := headers; body := None |} ;
  email <- lift (get_prop profile "email") ;
  email <-
    (if negb (ToBoolean email) then
       try_catch
         (emails <- request net "https://api.github.com/user/emails"
                      {| method := None; headers := headers; body := None |} ;
          primary <- lift (array_find emails primary_and_verified) ;
          lift (pick_email emails primary))
         (fun _ => ret Null)
     else ret email) ;
  id <- lift (get_prop profile "id") ;
  name <- lift (or_else (get_prop profile "name") (get_prop profile "login")) ;
  avatar_url <- lift (get_prop profile "avatar_url") ;
  ret {| User.provider := Str "github";
         User.id := Str (ToString id);
         User.email := email;
         User.name := name;
         User.avatar := avatar_url ||| Null;
         User.raw := profile;
         User.accessToken := Undefined |}.

Definition class : Provider :=
  Build_Provider name authorizationUrl tokenUrl defaultScopes fetchUser
                 OAuthProvider.addAuthParams.

End GitHubProvider.

Module GoogleProvider.

Definition name : string := "google".
Definition authorizationUrl : string := "https://accounts.google.com/o/oauth2/v2/auth".
Definition tokenUrl : string := "https://oauth2.googleapis.com/token".
Definition defaultScopes : list string := ["openid"; "email"; "profile"].

Definition fetchUser (net : Network) (accessToken : value) : M User.t :=
  profile <- request net "https://www.googleapis.com/oauth2/v2/userinfo"
               {| method := None;
                  headers := [("Authorization", "Bearer " ++ ToString accessToken)];
                  body := None |} ;
  id <- lift (get_prop profile "id") ;
  email <- lift (get_prop profile "email") ;
  name <- lift (get_prop profile "name") ;
  picture <- lift (get_prop profile "picture") ;
  ret {| User.provider := Str "google";
         User.id := Str (ToString id);
         User.email := email ||| Null;
         User.name := name ||| Null;
         User.avatar := picture ||| Null;
         User.raw := profile;
         User.accessToken := Undefined |}.

Definition class : Provider :=
  Build_Provider name authorizationUrl tokenUrl defaultScopes fetchUser
                 OAuthProvider.addAuthParams.

End GoogleProvider.

Module DiscordProvider.

Definition name : string := "discord".
Definition authorizationUrl : string := "https://discord.com/api/oauth2/authorize".
Definition tokenUrl : string := "https://discord.com/api/oauth2/token".
Definition defaultScopes : list string := ["identify"; "email"].

(** The CDN address of an avatar: animated avatars use [.gif]. *)
Definition avatar_url (profile : value) : outcome value :=
  hash <-- get_prop profile "avatar" ;;
  if ToBoolean hash then
    animated <-- startsWith hash "a_" ;;
    let ext := if animated then "gif" else "png" in
    id <-- get_prop profile "id" ;;
    Returns (Str ("https://cdn.discordapp.com/avatars/" ++ ToString id ++ "/"
                  ++ ToString hash ++ "." ++ ext))
  else Returns Null.

Definition fetchUser (net : Network) (accessToken : value) : M User.t :=
  profile <- request net "https://discord.com/api/v10/users/@me"
               {| method := None;
                  headers := [("Authorization", "Bearer " ++ ToString accessToken)];
                  body := None |} ;
  avatar <- lift (avatar_url profile) ;
  id <- lift (get_prop profile "id") ;
  email <- lift (get_prop profile "email") ;
  name <- lift (or_else (get_prop profile "global_name")
                        (get_prop profile "username")) ;
  ret {| User.provider := Str "discord";
         User.id := Str (ToString id);
         User.email := email ||| Null;
         User.name := name;
         User.avatar := avatar;
         User.raw := profile;
         User.accessToken := Undefined |}.

Definition class : Provider :=
  Build_Provider name authorizationUrl tokenUrl defaultScopes fetchUser
                 OAuthProvider.addAuthParams.

End DiscordProvider.

(** The registry of createOAuth.js: the three provider classes. *)
Inductive Variant : Type := github | google | discord.

Definition PROVIDERS (v : Variant) : Provider :=
  match v with
  | github => GitHubProvider.class
  | google => GoogleProvider.class
  | discord => DiscordProvider.class
  end.

(* ================================================================== *)
(** ** Concrete instances, requests and networks *)
(* ================================================================== *)

Module Example.

Definition config : Config.t :=
  {| Config.clientId := Str "client-1";
     Config.clientSecret := Str "s3cret";
     Config.redirectUri := Str "http://localhost:3000/auth/callback";
     Config.scopes := None |}.

(** What [new Provider(config)] builds for the variant. *)
Definition instance (v : Variant) : OAuthProvider.t :=
  {| OAuthProvider.cls := PROVIDERS v;
     OAuthProvider.clientId := Str "client-1";
     OAuthProvider.clientSecret := Str "s3cret";
     OAuthProvider.redirectUri := Str "http://localhost:3000/auth/callback";
     OAuthProvider.scopes := defaultScopes (PROVIDERS v) |}.

(** An Express-style request: [{ query: {...} }]. *)
Definition express (query : list (string * value)) : Req.t :=
  {| Req.query := Obj query; Req.nextUrl := None; Req.url := Undefined;
     Req.headers := Req.PlainHeaders Undefined |}.

(** [{ state: s }] *)
Definition expecting (s : string) : Options.t :=
  {| Options.scopes := None; Options.state := Str s |}.

(** A URL parser that accepts nothing: the examples use parsed queries. *)
Definition no_urls : UrlParser := fun _ _ => None.

(** A JSON response with the given status. *)
Definition json_response (st : Z) (v : value) : FetchResult :=
  Resolves {| status := st; content_type := Some "application/json; charset=utf-8";
              text := ""; json := Some v |}.

(** No route to any host. *)
Definition offline_result : FetchResult := Rejects "getaddrinfo ENOTFOUND".

Definition offline : Network := fun _ _ => offline_result.

(** A network that answers the token endpoint with [token] and every
    other address with [profile]. *)
Definition serving (token profile : FetchResult) : Network :=
  fun _ rq =>
    match rq_method rq with
    | Some _ => token
    | None => profile
    end.



(** A GitHub profile with a public email, and GitHub answering the token
    endpoint with a token and the API with that profile. *)
Definition octocat : value :=
  Obj [("id", Num 583231); ("login", Str "octocat");
       ("email", Str "octocat@example.com")].

Definition github_ok : Network :=
  serving (json_response 200 (Obj [("access_token", Str "gho_16C7e42F")]))
          (json_response 200 octocat).





(** GitHub's API: [emails] at the email list, [profile] elsewhere. *)
Definition github_api (profile emails : FetchResult) : Network :=
  fun _ rq => if rq_url rq =? "https://api.github.com/user/emails" then emails else profile.

End Example.

(* ================================================================== *)
(** ** Vocabulary of the properties *)
(* ================================================================== *)

(** One of the language's own errors. *)
Definition js_error (t : thrown) : Prop := exists kind msg, t = ThrowJs kind msg.

(** Errors the shared [request] helper raises, as opposed to the
    orchestrator's own: an [OAuthError] with a [null] provider and code
    [NETWORK_ERROR] or [HTTP_ERROR]. *)
Definition is_http_helper_error (e : OAuthError.t) : Prop :=
  OAuthError.provider e = Null /\
  (OAuthError.code e = Str "NETWORK_ERROR" \/ OAuthError.code e = Str "HTTP_ERROR").

Definition http_helper_error (t : thrown) : Prop :=
  js_error t \/ exists e, t = ThrowOAuth e /\ is_http_helper_error e.

(** Whatever the computation throws satisfies [P]. *)
Definition oraises {A} (P : thrown -> Prop) (o : outcome A) : Prop :=
  forall t, o = Throws t -> P t.

Definition raises {A} (P : thrown -> Prop) (m : M A) : Prop :=
  forall log t log', m log = (Throws t, log') -> P t.

(** The computation issues no network request. *)
Definition no_io {A} (m : M A) : Prop := forall log, snd (m log) = log.


(** The two errors of the state validator. *)
Definition state_error (t : thrown) : Prop :=
  t = ThrowOAuth STATE_MISSING \/ t = ThrowOAuth STATE_MISMATCH.

(** An [OAuthError] attributed to the provider called [nm]. *)
Definition attributed_to (nm : string) (t : thrown) : Prop :=
  exists e, t = ThrowOAuth e /\ OAuthError.provider e = Str nm.

(** No occurrence of the byte in the string. *)
Fixpoint free_of (sep : ascii) (s : string) : bool :=
  match s with
  | EmptyString => true
  | String c rest => negb (c =? sep)%char && free_of sep rest
  end.

(** One serialized pair. *)
Definition piece (kv : string * string) : string :=
  URLSearchParams.encode (fst kv) ++ "=" ++ URLSearchParams.encode (snd kv).

(** The query component of a URL: what follows its first [?]. *)
Definition query_of (url : string) : string := snd (URLSearchParams.cut "?" url).

(** The [options] [_exchangeCode] passes to [request]. *)
Definition token_request (self : OAuthProvider.t) (code : value) : RequestInit :=
  {| method := Some "POST";
     headers := [("Content-Type", "application/x-www-form-urlencoded");
                 ("Accept", "application/json")];
     body := Some (URLSearchParams.toString (URLSearchParams.of_record
                [("client_id", OAuthProvider.clientId self);
                 ("client_secret", OAuthProvider.clientSecret self);
                 ("code", code);
                 ("redirect_uri", OAuthProvider.redirectUri self);
                 ("grant_type", Str "authorization_code")])) |}.

(** The [options] of the two GitHub profile requests. *)
Definition github_request (accessToken : value) : RequestInit :=
  {| method := None;
     headers := [("Authorization", "Bearer " ++ ToString accessToken);
                 ("Accept", "application/vnd.github+json")];
     body := None |}.

(** An entry of the email list is marked [k] when its [k] is truthy. *)
Definition marked (k : string) (e : value) : bool := ToBoolean (get_prop_opt e k).

Definition primary_verified (e : value) : bool := marked "primary" e && marked "verified" e.

(** Neither [null] nor [undefined]. *)
Definition not_nullish (v : value) : bool :=
  match v with Undefined | Null => false | _ => true end.

(** [find] of the standard library, with [undefined] for no match. *)
Definition found (p : value -> bool) (items : list value) : value :=
  match List.find p items with Some e => e | None => Undefined end.

Definition github_emails_url : string := "https://api.github.com/user/emails".

(** The [options] of the Google and Discord profile requests. *)
Definition bearer_request (accessToken : value) : RequestInit :=
  {| method := None;
     headers := [("Authorization", "Bearer " ++ ToString accessToken)];
     body := None |}.

Definition discord_profile_url : string := "https://discord.com/api/v10/users/@me".

(** The display name each variant takes from a profile, with its
    fallback. *)
Definition display_name (v : Variant) (profile : value) : value :=
  match v with
  | github => get_prop_opt profile "name" ||| get_prop_opt profile "login"
  | google => get_prop_opt profile "name" ||| Null
  | discord => get_prop_opt profile "global_name" ||| get_prop_opt profile "username"
  end.

(* ================================================================== *)
(** ** utils/state.js: generateState *)
(* ================================================================== *)

(** [crypto.randomBytes]: for a size, a buffer of random bytes. *)
Definition RandomSource : Type := nat -> list Byte.byte.

(** One digit of [buf.toString('hex')]: lower-case hexadecimal. *)
Definition hex_lower (n : N) : ascii :=
  if (n <? 10)%N then ascii_of_N (48 + n) else ascii_of_N (87 + n).

(** [buf.toString('hex')]: two digits for every byte, high digit first. *)
Fixpoint toString_hex (buf : list Byte.byte) : string :=
  match buf with
  | [] => ""
  | b :: rest =>
      String (hex_lower (Byte.to_N b / 16))
        (String (hex_lower (Byte.to_N b mod 16)) (toString_hex rest))
  end.

(** [generateState(length = 32)]; [None] is a call without the argument. *)
Definition generateState (randomBytes : RandomSource) (length : option nat) : string :=
  let length := match length with Some n => n | None => 32 end in
  toString_hex (randomBytes length).

(* ================================================================== *)
(** ** createOAuth.js *)
(* ================================================================== *)

(** The double quote, for messages that quote a name. *)
Definition dquote : string := String "034"%char "".

(** [Object.keys(PROVIDERS)] *)
Definition PROVIDERS_keys : list string := ["github"; "google"; "discord"].

(** The properties the registry object inherits from [Object.prototype]
    that are not constructors: its methods, and [__proto__], the
    prototype object itself. *)
Definition inherited_non_constructors : list string :=
  ["__proto__"; "hasOwnProperty"; "isPrototypeOf"; "propertyIsEnumerable";
   "toLocaleString"; "toString"; "valueOf";
   "__defineGetter__"; "__defineSetter__"; "__lookupGetter__"; "__lookupSetter__"].

(** What [PROVIDERS[name]] evaluates to: a registered class; the inherited
    [constructor], which is [Object]; another inherited property, truthy
    but not a constructor; or [undefined]. *)
Inductive Registered : Type :=
| RegisteredClass (v : Variant)
| InheritedObject
| InheritedOther
| Unregistered.

Definition PROVIDERS_get (name : string) : Registered :=
  if name =? "github" then RegisteredClass github
  else if name =? "google" then RegisteredClass google
  else if name =? "discord" then RegisteredClass discord
  else if name =? "constructor" then InheritedObject
  else if existsb (String.eqb name) inherited_non_constructors then InheritedOther
  else Unregistered.

(** A value of the object [createOAuth] returns: a provider instance, or,
    under the key [constructor], the configuration object that
    [new Object(providerConfig)] hands back. *)
Inductive Client : Type :=
| Instance (p : OAuthProvider.t)
| Unwrapped (providerConfig : Config.t).

(** The loop over [Object.entries(config)], with the object built so
    far. *)
Fixpoint createOAuth_entries (entries : list (string * Config.t))
    (oauth : list (string * Client)) : outcome (list (string * Client)) :=
  match entries with
  | [] => Returns oauth
  | (name, providerConfig) :: rest =>
      match PROVIDERS_get name with
      | Unregistered =>
          Throws (ThrowJs "Error"
            ("Unknown provider " ++ dquote ++ name ++ dquote
             ++ ". Supported providers: " ++ join ", " PROVIDERS_keys))
      | InheritedOther =>
          Throws (ThrowJs "TypeError" "Provider is not a constructor")
      | InheritedObject =>
          createOAuth_entries rest (obj_set name (Unwrapped providerConfig) oauth)
      | RegisteredClass v =>
          p <-- OAuthProvider.constructor (PROVIDERS v) providerConfig ;;
          createOAuth_entries rest (obj_set name (Instance p) oauth)
      end
  end.

(** [createOAuth(config)]; [config] is [None] for an argument that is
    falsy or not an object, else its own properties in order, each a
    provider configuration. *)
Definition createOAuth (config : option (list (string * Config.t)))
  : outcome (list (string * Client)) :=
  match config with
  | None => Throws (ThrowJs "Error" "createOAuth() requires a configuration object")
  | Some entries =>
      oauth <-- createOAuth_entries entries [] ;;
      if (length oauth =? 0)%nat
      then Throws (ThrowJs "Error"
             "At least one provider must be configured (github, google, discord)")
      else Returns oauth
  end.

(* ================================================================== *)
(** ** Further vocabulary *)
(* ================================================================== *)

(** A lower-case hexadecimal digit. *)
Definition is_hex_lower (c : ascii) : bool :=
  let n := N_of_ascii c in
  (((48 <=? n) && (n <=? 57)) || ((97 <=? n) && (n <=? 102)))%N.

(** Every character of the string passes the test. *)
Fixpoint all_chars (p : ascii -> bool) (s : string) : bool :=
  match s with
  | EmptyString => true
  | String c rest => p c && all_chars p rest
  end.

(** [Buffer.from(s, 'hex')] on a string of lower-case digit pairs: the
    inverse of [toString_hex]. *)
Definition hex_lower_val (c : ascii) : N :=
  let n := N_of_ascii c in
  if (n <=? 57)%N then (n - 48)%N else (n - 87)%N.

Fixpoint from_hex (s : string) : list Byte.byte :=
  match s with
  | String h (String l rest) =>
      match Byte.of_N (16 * hex_lower_val h + hex_lower_val l) with
      | Some b => b :: from_hex rest
      | None => []
      end
  | _ => []
  end.

(** The three required fields of a configuration are present. *)
Definition complete (config : Config.t) : bool :=
  ToBoolean (Config.clientId config) && ToBoolean (Config.clientSecret config)
  && ToBoolean (Config.redirectUri config).

(** The instance the constructor assigns from a configuration. *)
Definition built (P : Provider) (config : Config.t) : OAuthProvider.t :=
  {| OAuthProvider.cls := P;
     OAuthProvider.clientId := Config.clientId config;
     OAuthProvider.clientSecret := Config.clientSecret config;
     OAuthProvider.redirectUri := Config.redirectUri config;
     OAuthProvider.scopes := match Config.scopes config with
                             | Some l => l
                             | None => defaultScopes P
                             end |}.

(** The message of the constructor for a missing field. *)
Definition CONFIG_ERROR (P : Provider) (field : string) : OAuthError.t :=
  OAuthError.new (Str (field ++ " is required")) (Str (name P)) (Str "CONFIG_ERROR").

(** An entry of the configuration that names a registered provider and
    gives it a complete configuration. *)
Definition valid_entry (e : string * Config.t) : bool :=
  match PROVIDERS_get (fst e) with
  | RegisteredClass _ => complete (snd e)
  | _ => false
  end.

(** The client [createOAuth] stores for a valid entry. *)
Definition client_for (e : string * Config.t) : string * Client :=
  match PROVIDERS_get (fst e) with
  | RegisteredClass v => (fst e, Instance (built (PROVIDERS v) (snd e)))
  | _ => (fst e, Unwrapped (snd e))
  end.

(** The four extracted parameters, in the order of the record. *)
Definition params_fields (p : Params.t) : list value :=
  [Params.code p; Params.state p; Params.error p; Params.errorDescription p].

(** [req.query] is a parsed-query mapping: truthy, of type object. *)
Definition has_query (req : Req.t) : bool :=
  ToBoolean (Req.query req) && typeof_object (Req.query req).

(** One of the three request shapes matches. *)
Definition recognized (req : Req.t) : bool :=
  has_query req
  || match Req.nextUrl req with Some _ => true | None => false end
  || ToBoolean (Req.url req).

(** The error of [_extractParams] for a request of no known shape. *)
Definition INVALID_REQUEST (self : OAuthProvider.t) : OAuthError.t :=
  OAuthError.new
    (Str ("Unable to extract query parameters from the request object. " ++
          "Pass a standard Node.js/Web request, or an Express/Fastify/Next.js request."))
    (Str (name (OAuthProvider.cls self))) (Str "INVALID_REQUEST").

(** The parameters read through a [searchParams] accessor. *)
Definition params_of (sp : URLSearchParams.t) : Params.t :=
  {| Params.code := URLSearchParams.get "code" sp;
     Params.state := URLSearchParams.get "state" sp;
     Params.error := URLSearchParams.get "error" sp;
     Params.errorDescription := URLSearchParams.get "error_description" sp |}.

(** [req.headers.get('host')], or [req.headers?.host]. *)
Definition host_header (req : Req.t) : value :=
  match Req.headers req with
  | Req.WebHeaders get => get "host"
  | Req.PlainHeaders h => get_prop_opt h "host"
  end.

(** First and last binding of a key in a list of pairs. *)
Fixpoint assoc {A} (k : string) (l : list (string * A)) : option A :=
  match l with
  | [] => None
  | (k', v) :: rest => if k' =? k then Some v else assoc k rest
  end.

Definition last_binding {A} (k : string) (l : list (string * A)) : option A :=
  fold_left (fun acc kv => if fst kv =? k then Some (snd kv) else acc) l None.

(** The response declares a JSON body. *)
Definition json_content_type (r : Response) : bool :=
  includes
    (ToString (match content_type r with Some s => Str s | None => Null end ||| Str ""))
    "application/json".

(** The first request of each variant's profile fetch. *)
Definition profile_url (v : Variant) : string :=
  match v with
  | github => "https://api.github.com/user"
  | google => "https://www.googleapis.com/oauth2/v2/userinfo"
  | discord => discord_profile_url
  end.

Definition profile_request (v : Variant) (accessToken : value) : RequestInit :=
  match v with
  | github => github_request accessToken
  | google | discord => bearer_request accessToken
  end.

(** [null], or a truthy value: never [undefined] or an empty string. *)
Definition null_or_present (v : value) : Prop := v = Null \/ ToBoolean v = true.


(** [Number.isSafeInteger(n)]: an integer the language represents exactly
    and prints as its decimal numeral. *)
Definition safe_integer (n : Z) : bool := (Z.abs n <=? 2 ^ 53 - 1)%Z.

(** The profile field each variant takes the display name from, and the
    field it falls back on. *)
Definition name_field (v : Variant) : string :=
  match v with
  | github | google => "name"
  | discord => "global_name"
  end.

Definition fallback_field (v : Variant) : option string :=
  match v with
  | github => Some "login"
  | discord => Some "username"
  | google => None
  end.

(** The properties every plain object inherits from [Object.prototype]. *)
Definition Object_prototype_keys : list string :=
  "constructor" :: inherited_non_constructors.

Definition inherited (k : string) : bool :=
  existsb (String.eqb k) Object_prototype_keys.

(** Well-formed UTF-8, by the table of the Unicode standard: the byte
    strings that are the UTF-8 form of a string, and that the runtime
    decodes without a replacement character. *)
Definition between (lo hi n : N) : bool := ((lo <=? n) && (n <=? hi))%N.

Definition continuation (n : N) : bool := between 0x80 0xBF n.

Fixpoint well_formed_bytes (l : list N) : bool :=
  match l with
  | [] => true
  | b1 :: l1 =>
      if (b1 <=? 0x7F)%N then well_formed_bytes l1
      else
        match l1 with
        | [] => false
        | b2 :: l2 =>
            if between 0xC2 0xDF b1 then continuation b2 && well_formed_bytes l2
            else
              match l2 with
              | [] => false
              | b3 :: l3 =>
                  if between 0xE0 0xEF b1 then
                    (if (b1 =? 0xE0)%N then between 0xA0 0xBF b2
                     else if (b1 =? 0xED)%N then between 0x80 0x9F b2
                     else continuation b2)
                    && continuation b3 && well_formed_bytes l3
                  else
                    match l3 with
                    | [] => false
                    | b4 :: l4 =>
                        between 0xF0 0xF4 b1
                        && (if (b1 =? 0xF0)%N then between 0x90 0xBF b2
                            else if (b1 =? 0xF4)%N then between 0x80 0x8F b2
                            else continuation b2)
                        && continuation b3 && continuation b4
                        && well_formed_bytes l4
                    end
              end
        end
  end.

Definition well_formed (s : string) : bool :=
  well_formed_bytes (map N_of_ascii (list_ascii_of_string s)).

(** Keys and values of the pairs are all well-formed. *)
Definition well_formed_pairs (pairs : list (string * string)) : bool :=
  forallb (fun kv => well_formed (fst kv) && well_formed (snd kv)) pairs.

(* ================================================================== *)
(** * Properties *)
(* ================================================================== *)

(** ** The state validator *)

Lemma byte_val_inj (x y : Byte.byte) : byte_val x = byte_val y -> x = y.
Proof.
  unfold byte_val; intro H.
  apply N2Z.inj in H.
  assert (E : Byte.of_N (Byte.to_N x) = Byte.of_N (Byte.to_N y)) by (now rewrite H).
  rewrite !Byte.of_to_N in E.
  now injection E.
Qed.

Lemma Buffer_from_inj (s1 s2 : string) : Buffer_from s1 = Buffer_from s2 -> s1 = s2.
Proof.
  unfold Buffer_from; intro H.
  rewrite <- (string_of_list_byte_of_string s1), <- (string_of_list_byte_of_string s2).
  now rewrite H.
Qed.

(** The accumulator ends at zero exactly when it started at zero and the
    buffers hold the same bytes. *)
Lemma memcmp_acc_zero (a : list Byte.byte) :
  forall b acc n, length a = length b ->
    (fst (memcmp_acc a b acc n) = 0%Z <-> acc = 0%Z /\ a = b).
Proof.
  induction a as [|x a IH]; intros [|y b] acc n Hlen; simpl in *; try discriminate.
  - tauto.
  - rewrite IH by lia.
    rewrite Z.lor_eq_0_iff, Z.lxor_eq_0_iff.
    split.
    + intros [[Hacc Hxy] Hab]. apply byte_val_inj in Hxy. subst. tauto.
    + intros [Hacc Hab]. injection Hab as -> ->. tauto.
Qed.

Lemma timingSafeEqual_spec (a b : list Byte.byte) :
  length a = length b ->
  exists r, timingSafeEqual a b = Returns r /\ (r = true <-> a = b).
Proof.
  intro Hlen. unfold timingSafeEqual.
  rewrite (proj2 (Nat.eqb_eq _ _) Hlen). simpl.
  eexists; split; [reflexivity|].
  rewrite Z.eqb_eq, memcmp_acc_zero by assumption. tauto.
Qed.

(** With both arguments present, [validateState] compares their string
    forms. *)
Lemma validateState_present (expected received : value) :
  ToBoolean expected = true -> ToBoolean received = true ->
  validateState expected received =
    if ToString expected =? ToString received
    then Returns tt else Throws (ThrowOAuth STATE_MISMATCH).
Proof.
  intros He Hr. unfold validateState. rewrite He, Hr. simpl.
  destruct (Nat.eqb_spec (length (Buffer_from (ToString expected)))
                         (length (Buffer_from (ToString received)))) as [Hlen|Hlen]; simpl.
  - destruct (timingSafeEqual_spec _ _ Hlen) as [r [-> Hr']].
    destruct (String.eqb_spec (ToString expected) (ToString received)) as [E|E].
    + assert (r = true) as -> by (apply Hr'; now rewrite E). reflexivity.
    + destruct r; [|reflexivity].
      exfalso. apply E, Buffer_from_inj. now apply Hr'.
  - destruct (String.eqb_spec (ToString expected) (ToString received)) as [E|E];
      [|reflexivity].
    exfalso. apply Hlen. now rewrite E.
Qed.

Lemma validateState_absent (expected received : value) :
  ToBoolean expected && ToBoolean received = false ->
  validateState expected received = Throws (ThrowOAuth STATE_MISSING).
Proof.
  intro H. unfold validateState.
  destruct (ToBoolean expected), (ToBoolean received); simpl in *;
    try discriminate; reflexivity.
Qed.

(** [validateState] throws nothing but its two errors. *)
Lemma validateState_throws (expected received : value) (t : thrown) :
  validateState expected received = Throws t ->
  t = ThrowOAuth STATE_MISSING \/ t = ThrowOAuth STATE_MISMATCH.
Proof.
  destruct (ToBoolean expected && ToBoolean received) eqn:E.
  - apply andb_true_iff in E as [He Hr].
    rewrite (validateState_present _ _ He Hr).
    destruct (_ =? _); [discriminate|]. intro H; injection H as <-. now right.
  - rewrite (validateState_absent _ _ E). intro H; injection H as <-. now left.
Qed.

Lemma ToBoolean_Str (s : string) : ToBoolean (Str s) = true <-> s <> "".
Proof.
  simpl. destruct (String.eqb_spec s ""); simpl; split; congruence.
Qed.

(** *** Strings with unpaired surrogates *)

(** On two non-empty strings [Utf16.validateState] compares the UTF-8
    bytes [Buffer.from] gives them. *)
Lemma validateState_on_buffers (x y : Utf16.jsstring) :
  x <> [] -> y <> [] ->
  (Utf16.Buffer_from x = Utf16.Buffer_from y ->
   Utf16.validateState (Some x) (Some y) = Returns tt)
  /\ (Utf16.Buffer_from x <> Utf16.Buffer_from y ->
      Utf16.validateState (Some x) (Some y) = Throws (ThrowOAuth STATE_MISMATCH)).
Proof.
  intros Hx Hy. unfold Utf16.validateState.
  destruct x as [|u x]; [contradiction|]. destruct y as [|w y]; [contradiction|].
  cbn [Utf16.ToBoolean Utf16.ToString negb orb].
  destruct (Nat.eqb_spec (length (Utf16.Buffer_from (u :: x)))
                         (length (Utf16.Buffer_from (w :: y)))) as [Hlen|Hlen];
    cbn [negb].
  - destruct (timingSafeEqual_spec _ _ Hlen) as [r [-> Hr]].
    split; intro H.
    + now rewrite (proj2 Hr H).
    + destruct r; [|reflexivity]. exfalso. now apply H, Hr.
  - split; intro H; [|reflexivity]. exfalso. apply Hlen. now rewrite H.
Qed.

(** C3, at the input where the code departs from it.  The two strings
    ["\uD800"] and ["\uD801"] are different and both present, yet
    [validateState] returns without an error: each is one unpaired
    surrogate, [Buffer.from] encodes both as the three bytes of U+FFFD, and
    the two buffers agree in length and in content. *)
Theorem validateState_unpaired_surrogates :
  [0xD800%N] <> [0xD801%N]
  /\ Utf16.Buffer_from [0xD800%N] = [Byte.xef; Byte.xbf; Byte.xbd]
  /\ Utf16.Buffer_from [0xD801%N] = [Byte.xef; Byte.xbf; Byte.xbd]
  /\ Utf16.validateState (Some [0xD800%N]) (Some [0xD801%N]) = Returns tt.
Proof.
  split; [discriminate|]. split; [reflexivity|]. split; reflexivity.
Qed.

(** *** [Buffer.from] on well-formed strings *)

Lemma to_N_octet n : (n < 256)%N -> Byte.to_N (Utf16.octet n) = n.
Proof.
  intro H. unfold Utf16.octet. destruct (Byte.of_N n) eqn:E.
  - now apply Byte.to_of_N.
  - apply Byte.of_N_None_iff in E. lia.
Qed.

Ltac euclid := zify; Z.to_euclidean_division_equations; lia.

(** A code unit that stands for itself decodes from its one to three
    bytes. *)
Lemma Buffer_toString_unit u rest :
  (u < 0x10000)%N ->
  Utf16.Buffer_toString (Utf16.utf8 u ++ rest) = u :: Utf16.Buffer_toString rest.
Proof.
  unfold Utf16.utf8. intros Hu.
  destruct (N.ltb_spec u 0x80).
  - cbn [app Utf16.Buffer_toString]. rewrite to_N_octet by lia.
    destruct (N.ltb_spec u 0x80); [reflexivity|lia].
  - destruct (N.ltb_spec u 0x800).
    + cbn [app Utf16.Buffer_toString]. rewrite !to_N_octet by euclid.
      destruct (N.ltb_spec (0xC0 + u / 0x40) 0x80); [euclid|].
      destruct (N.ltb_spec (0xC0 + u / 0x40) 0xE0); [|euclid].
      f_equal. euclid.
    + destruct (N.ltb_spec u 0x10000); [|lia].
      cbn [app Utf16.Buffer_toString]. rewrite !to_N_octet by euclid.
      destruct (N.ltb_spec (0xE0 + u / 0x1000) 0x80); [euclid|].
      destruct (N.ltb_spec (0xE0 + u / 0x1000) 0xE0); [euclid|].
      destruct (N.ltb_spec (0xE0 + u / 0x1000) 0xF0); [|euclid].
      f_equal. euclid.
Qed.

(** The four bytes of a code point above U+FFFF, and the way back. *)
Lemma utf8_four c :
  (0x10000 <= c < 0x110000)%N ->
  (0xF0 + c / 0x40000 < 256
   /\ 0xF0 <= 0xF0 + c / 0x40000
   /\ 0x80 + (c / 0x1000) mod 0x40 < 256
   /\ 0x80 + (c / 0x40) mod 0x40 < 256
   /\ 0x80 + c mod 0x40 < 256
   /\ (0xF0 + c / 0x40000 - 0xF0) * 0x40000
      + (0x80 + (c / 0x1000) mod 0x40 - 0x80) * 0x1000
      + (0x80 + (c / 0x40) mod 0x40 - 0x80) * 0x40
      + (0x80 + c mod 0x40 - 0x80) - 0x10000 = c - 0x10000)%N.
Proof. euclid. Qed.

(** The code point of a surrogate pair, and the pair of a code point. *)
Lemma surrogates_of_pair h l :
  (0xD800 <= h <= 0xDBFF)%N -> (0xDC00 <= l <= 0xDFFF)%N ->
  (0x10000 <= 0x10000 + (h - 0xD800) * 0x400 + (l - 0xDC00) < 0x110000
   /\ 0xD800 + (0x10000 + (h - 0xD800) * 0x400 + (l - 0xDC00) - 0x10000) / 0x400 = h
   /\ 0xDC00 + (0x10000 + (h - 0xD800) * 0x400 + (l - 0xDC00) - 0x10000) mod 0x400 = l)%N.
Proof. euclid. Qed.

Lemma Buffer_toString_pair h l rest :
  Utf16.high_surrogate h = true -> Utf16.low_surrogate l = true ->
  Utf16.Buffer_toString
    (Utf16.utf8 (0x10000 + (h - 0xD800) * 0x400 + (l - 0xDC00)) ++ rest)
  = h :: l :: Utf16.Buffer_toString rest.
Proof.
  unfold Utf16.high_surrogate, Utf16.low_surrogate. intros Hh Hl.
  apply andb_true_iff in Hh as [Hh1 Hh2]. apply andb_true_iff in Hl as [Hl1 Hl2].
  apply N.leb_le in Hh1, Hh2, Hl1, Hl2.
  destruct (surrogates_of_pair h l (conj Hh1 Hh2) (conj Hl1 Hl2)) as (Hc & Eh & El).
  set (c := (0x10000 + (h - 0xD800) * 0x400 + (l - 0xDC00))%N) in *.
  clearbody c. clear Hh1 Hh2 Hl1 Hl2.
  destruct (utf8_four c Hc) as (B1 & L1 & B2 & B3 & B4 & E).
  unfold Utf16.utf8.
  destruct (N.ltb_spec c 0x80); [lia|].
  destruct (N.ltb_spec c 0x800); [lia|].
  destruct (N.ltb_spec c 0x10000); [lia|].
  cbn [app Utf16.Buffer_toString]. rewrite !to_N_octet by assumption.
  destruct (N.ltb_spec (0xF0 + c / 0x40000) 0x80); [lia|].
  destruct (N.ltb_spec (0xF0 + c / 0x40000) 0xE0); [lia|].
  destruct (N.ltb_spec (0xF0 + c / 0x40000) 0xF0); [lia|].
  rewrite E, Eh, El. reflexivity.
Qed.

(** Decoding undoes [Buffer.from] on every well-formed string. *)
Lemma Buffer_toString_from (s : Utf16.jsstring) :
  Utf16.code_units s -> Utf16.isWellFormed s = true ->
  Utf16.Buffer_toString (Utf16.Buffer_from s) = s.
Proof.
  remember (length s) as n eqn:Hn. revert s Hn.
  induction n as [n IH] using lt_wf_ind. intros s Hn Hcu Hwf.
  destruct s as [|u rest]; [reflexivity|].
  cbn [Utf16.isWellFormed Utf16.Buffer_from] in Hwf |- *.
  inversion Hcu as [|? ? Hu Hrest]; subst.
  destruct (Utf16.high_surrogate u) eqn:Hh.
  - destruct rest as [|l rest']; [discriminate|].
    apply andb_true_iff in Hwf as [Hl Hwf]. rewrite Hl.
    inversion Hrest; subst.
    rewrite Buffer_toString_pair by assumption.
    rewrite (IH (length rest')); simpl; auto; lia.
  - apply andb_true_iff in Hwf as [Hl Hwf]. apply negb_true_iff in Hl. rewrite Hl.
    rewrite Buffer_toString_unit by assumption.
    rewrite (IH (length rest)); simpl; auto; lia.
Qed.

(** So [Buffer.from] tells well-formed strings apart. *)
Lemma Buffer_from_well_formed_inj (x y : Utf16.jsstring) :
  Utf16.code_units x -> Utf16.code_units y ->
  Utf16.isWellFormed x = true -> Utf16.isWellFormed y = true ->
  Utf16.Buffer_from x = Utf16.Buffer_from y -> x = y.
Proof.
  intros Hx Hy Wx Wy E.
  rewrite <- (Buffer_toString_from x Hx Wx), <- (Buffer_toString_from y Hy Wy).
  now rewrite E.
Qed.

(** ** Serializing and parsing query strings *)

Lemma free_of_app sep a b : free_of sep (a ++ b) = free_of sep a && free_of sep b.
Proof.
  induction a as [|c a IH]; simpl; [reflexivity|].
  now rewrite IH, andb_assoc.
Qed.

Ltac each_byte c := destruct c as [[] [] [] [] [] [] [] []].

Lemma encode_byte_free c :
  free_of "&" (URLSearchParams.encode_byte c) = true /\ free_of "=" (URLSearchParams.encode_byte c) = true
  /\ free_of "?" (URLSearchParams.encode_byte c) = true.
Proof. each_byte c; vm_compute; repeat split. Qed.

Lemma encode_free s :
  free_of "&" (URLSearchParams.encode s) = true /\ free_of "=" (URLSearchParams.encode s) = true
  /\ free_of "?" (URLSearchParams.encode s) = true.
Proof.
  induction s as [|c s (IH1 & IH2 & IH3)]; simpl; [repeat split|].
  rewrite !free_of_app, IH1, IH2, IH3.
  destruct (encode_byte_free c) as (-> & -> & ->). repeat split.
Qed.

Lemma cut_app sep a b :
  free_of sep a = true -> URLSearchParams.cut sep (a ++ String sep b) = (a, b).
Proof.
  induction a as [|c a IH]; simpl.
  - now rewrite Ascii.eqb_refl.
  - intro H. apply andb_true_iff in H as [Hc Ha].
    apply negb_true_iff in Hc. rewrite Hc, (IH Ha). reflexivity.
Qed.

Lemma split_free sep a : free_of sep a = true -> URLSearchParams.split sep a = [a].
Proof.
  induction a as [|c a IH]; simpl; [reflexivity|].
  intro H. apply andb_true_iff in H as [Hc Ha].
  apply negb_true_iff in Hc. now rewrite Hc, (IH Ha).
Qed.

Lemma split_app sep a b :
  free_of sep a = true -> URLSearchParams.split sep (a ++ String sep b) = a :: URLSearchParams.split sep b.
Proof.
  induction a as [|c a IH]; simpl.
  - now rewrite Ascii.eqb_refl.
  - intro H. apply andb_true_iff in H as [Hc Ha].
    apply negb_true_iff in Hc. now rewrite Hc, (IH Ha).
Qed.

Lemma plus_to_space_app a b :
  URLSearchParams.plus_to_space (a ++ b) = URLSearchParams.plus_to_space a ++ URLSearchParams.plus_to_space b.
Proof. induction a as [|c a IH]; simpl; [reflexivity | now rewrite IH]. Qed.

Lemma decode_encode_byte c s :
  URLSearchParams.percent_decode (URLSearchParams.plus_to_space (URLSearchParams.encode_byte c) ++ s) = String c (URLSearchParams.percent_decode s).
Proof. each_byte c; reflexivity. Qed.

Lemma decode_encode s : URLSearchParams.decode (URLSearchParams.encode s) = s.
Proof.
  unfold URLSearchParams.decode. induction s as [|c s IH]; simpl; [reflexivity|].
  now rewrite plus_to_space_app, decode_encode_byte, IH.
Qed.

Lemma piece_free kv : free_of "&" (piece kv) = true.
Proof.
  unfold piece. rewrite !free_of_app.
  destruct (encode_free (fst kv)) as (-> & _), (encode_free (snd kv)) as (-> & _).
  reflexivity.
Qed.

Lemma piece_nonempty kv : (piece kv =? "") = false.
Proof.
  unfold piece. destruct (URLSearchParams.encode (fst kv)); reflexivity.
Qed.

Lemma piece_parsed kv :
  (let (n, v) := URLSearchParams.cut "=" (piece kv) in (URLSearchParams.decode n, URLSearchParams.decode v)) = kv.
Proof.
  unfold piece. simpl append.
  rewrite cut_app by apply encode_free.
  rewrite !decode_encode. now destruct kv.
Qed.

(** Parsing what [URLSearchParams.toString] wrote gives the pairs back. *)
Lemma parse_pairs_toString (l : URLSearchParams.t) : URLSearchParams.parse_pairs (URLSearchParams.toString l) = l.
Proof.
  unfold URLSearchParams.parse_pairs, URLSearchParams.toString. fold piece.
  induction l as [|kv l IH]; [reflexivity|].
  destruct l as [|kv' l].
  - simpl. rewrite (split_free "&" _ (piece_free kv)). simpl.
    rewrite piece_nonempty. simpl. now rewrite piece_parsed.
  - change (join "&" (map piece (kv :: kv' :: l)))
      with (piece kv ++ String "&" (join "&" (map piece (kv' :: l)))).
    rewrite (split_app "&" _ _ (piece_free kv)).
    simpl filter. rewrite piece_nonempty. simpl negb. cbv iota.
    rewrite map_cons, piece_parsed. f_equal. exact IH.
Qed.

Lemma toString_no_question l : free_of "?" (URLSearchParams.toString l) = true.
Proof.
  unfold URLSearchParams.toString. fold piece.
  assert (P : forall kv, free_of "?" (piece kv) = true).
  { intro kv. unfold piece. rewrite !free_of_app.
    destruct (encode_free (fst kv)) as (_ & _ & ->), (encode_free (snd kv)) as (_ & _ & ->).
    reflexivity. }
  induction l as [|kv l IH]; [reflexivity|].
  destruct l as [|kv' l]; [apply P|].
  change (join "&" (map piece (kv :: kv' :: l)))
    with (piece kv ++ String "&" (join "&" (map piece (kv' :: l)))).
  rewrite free_of_app, P. simpl. exact IH.
Qed.

Theorem parse_toString (l : URLSearchParams.t) : URLSearchParams.parse (URLSearchParams.toString l) = l.
Proof.
  pose proof (toString_no_question l) as H.
  unfold URLSearchParams.parse. destruct (URLSearchParams.toString l) as [|c s] eqn:E.
  - rewrite <- E. apply parse_pairs_toString.
  - simpl in H. destruct (Ascii.eqb_spec c "?") as [->|Hc]; [discriminate|].
    rewrite <- E.
    replace (match c with "?"%char => URLSearchParams.parse_pairs s | _ => URLSearchParams.parse_pairs (URLSearchParams.toString l) end)
      with (URLSearchParams.parse_pairs (URLSearchParams.toString l)); [apply parse_pairs_toString|].
    clear -Hc. each_byte c; try reflexivity. now elim Hc.
Qed.

(** ** Which errors a computation can raise *)

Section Raises.
Context (P : thrown -> Prop).

Lemma oraises_Returns {A} (a : A) : oraises P (Returns a).
Proof. intros t H; discriminate. Qed.

Lemma oraises_Throws {A} t : P t -> oraises P (@Throws A t).
Proof. intros Ht t' H; injection H as <-; exact Ht. Qed.

Lemma oraises_obind {A B} (m : outcome A) (k : A -> outcome B) :
  oraises P m -> (forall a, oraises P (k a)) -> oraises P (obind m k).
Proof.
  intros Hm Hk t. destruct m as [a|t']; simpl.
  - apply Hk.
  - intro H; injection H as <-. now apply Hm.
Qed.

Lemma oraises_if {A} (b : bool) (x y : outcome A) :
  oraises P x -> oraises P y -> oraises P (if b then x else y).
Proof. now destruct b. Qed.

Lemma oraises_or_else (a b : outcome value) :
  oraises P a -> oraises P b -> oraises P (or_else a b).
Proof.
  intros Ha Hb. unfold or_else. apply oraises_obind; [assumption|].
  intro x. apply oraises_if; [apply oraises_Returns | assumption].
Qed.

Lemma raises_ret {A} (a : A) : raises P (ret a).
Proof. intros log t log' H; discriminate. Qed.

Lemma raises_throw {A} t : P t -> raises P (@throw A t).
Proof. intros Ht log t' log' H; injection H as <- _; exact Ht. Qed.

Lemma raises_lift {A} (o : outcome A) : oraises P o -> raises P (lift o).
Proof. intros Ho log t log' H; injection H as H _. now apply Ho. Qed.

Lemma raises_bind {A B} (m : M A) (k : A -> M B) :
  raises P m -> (forall a, raises P (k a)) -> raises P (bind m k).
Proof.
  intros Hm Hk log t log'. unfold bind.
  destruct (m log) as [[a|t'] l] eqn:E.
  - apply Hk.
  - intro H; injection H as <- _. exact (Hm _ _ _ E).
Qed.

Lemma raises_if {A} (b : bool) (x y : M A) :
  raises P x -> raises P y -> raises P (if b then x else y).
Proof. now destruct b. Qed.

Lemma raises_try_catch {A} (body : M A) (handler : thrown -> M A) :
  (forall t, raises P (handler t)) -> raises P (try_catch body handler).
Proof.
  intros Hh log t log'. unfold try_catch.
  destruct (body log) as [[a|t'] l]; [discriminate|]. apply Hh.
Qed.
End Raises.

Lemma raises_weaken {A} (P Q : thrown -> Prop) (m : M A) :
  (forall t, P t -> Q t) -> raises P m -> raises Q m.
Proof. intros HPQ Hm log t log' H. eapply HPQ, Hm, H. Qed.

Lemma oraises_get_prop v k : oraises js_error (get_prop v k).
Proof.
  intros t. destruct v; simpl; try discriminate;
    intro H; injection H as <-; red; eauto.
Qed.

Lemma raises_fetch net rq : raises js_error (fetch net rq).
Proof.
  intros log t log'. unfold fetch.
  destruct (net log rq); [|discriminate].
  intro H; injection H as <- _. red; eauto.
Qed.

Lemma request_raises net url options : raises http_helper_error (request net url options).
Proof.
  unfold request.
  apply raises_bind.
  - apply raises_try_catch. intro t. apply raises_throw.
    right. eexists; split; [reflexivity|]. split; [reflexivity | now left].
  - intro response. apply raises_bind.
    + apply raises_if; destruct (json response);
        try apply raises_ret.
      apply raises_throw. left. red; eauto.
    + intro data. apply raises_if; [|apply raises_ret].
      apply raises_bind.
      * apply raises_lift. eapply oraises_or_else; [|apply oraises_Returns].
        repeat apply oraises_or_else; intros t Ht; left; eapply oraises_get_prop; eauto.
      * intro message. apply raises_throw.
        right. eexists; split; [reflexivity|]. split; [reflexivity | now right].
Qed.

(** ** Computations that stay off the network *)

Lemma no_io_ret {A} (a : A) : no_io (ret a).
Proof. now intro. Qed.

Lemma no_io_throw {A} t : no_io (@throw A t).
Proof. now intro. Qed.

Lemma no_io_lift {A} (o : outcome A) : no_io (lift o).
Proof. now intro. Qed.

Lemma no_io_bind {A B} (m : M A) (k : A -> M B) :
  no_io m -> (forall a, no_io (k a)) -> no_io (bind m k).
Proof.
  intros Hm Hk log. unfold bind. specialize (Hm log).
  destruct (m log) as [[a|t] l]; simpl in *; subst; [apply Hk | reflexivity].
Qed.

Lemma no_io_if {A} (b : bool) (x y : M A) :
  no_io x -> no_io y -> no_io (if b then x else y).
Proof. now destruct b. Qed.

(** When the first step returns, the rest runs on its log. *)
Lemma bind_returns {A B} (m : M A) (k : A -> M B) log a log' :
  m log = (Returns a, log') -> bind m k log = k a log'.
Proof. intro H. unfold bind. now rewrite H. Qed.

Lemma bind_throws {A B} (m : M A) (k : A -> M B) log t log' :
  m log = (Throws t, log') -> bind m k log = (Throws t, log').
Proof. intro H. unfold bind. now rewrite H. Qed.

Lemma bind_inv_returns {A B} (m : M A) (k : A -> M B) log b log' :
  bind m k log = (Returns b, log') ->
  exists a l, m log = (Returns a, l) /\ k a l = (Returns b, log').
Proof.
  unfold bind. destruct (m log) as [[a|t] l]; [|discriminate].
  intro H. now exists a, l.
Qed.

Lemma bind_lift_returns {A B} (o : outcome A) (k : A -> M B) log a :
  o = Returns a -> bind (lift o) k log = k a log.
Proof. now intros ->. Qed.

Lemma bind_lift_throws {A B} (o : outcome A) (k : A -> M B) log t :
  o = Throws t -> bind (lift o) k log = (Throws t, log).
Proof. now intros ->. Qed.

(** Run the first step of the goal, whose result is the hypothesis [H]. *)
Ltac run H :=
  first [ rewrite (bind_lift_returns _ _ _ _ H)
        | rewrite (bind_lift_throws _ _ _ _ H)
        | rewrite (bind_returns _ _ _ _ _ H)
        | rewrite (bind_throws _ _ _ _ _ H) ];
  cbv beta.

(** ** The request helper *)

(** Every call of [request] issues exactly one network request. *)
Lemma request_log net url options log :
  snd (request net url options log) = (log ++ [sent_request url options])%list.
Proof.
  unfold request, bind at 1, try_catch, fetch.
  destruct (net log (sent_request url options)) as [msg|r]; [reflexivity|].
  apply no_io_bind.
  - apply no_io_if; destruct (json r);
      first [apply no_io_ret | apply no_io_throw].
  - intro data. apply no_io_if; [|apply no_io_ret].
    apply no_io_bind; [apply no_io_lift | intro; apply no_io_throw].
Qed.

(** A transport failure becomes a NETWORK_ERROR with a [null] provider. *)
Lemma request_rejected net url options log msg :
  net log (sent_request url options) = Rejects msg ->
  request net url options log =
    (Throws (ThrowOAuth (OAuthError.new
       (Str ("Network request to " ++ url ++ " failed: " ++ msg))
       Null (Str "NETWORK_ERROR"))),
     (log ++ [sent_request url options])%list).
Proof.
  intro H. unfold request, bind, try_catch, fetch, throw. now rewrite H.
Qed.

(** [request] returns only on a success status. *)
Lemma request_returns net url options log data log' :
  request net url options log = (Returns data, log') ->
  exists r, net log (sent_request url options) = Resolves r /\ ok r = true.
Proof.
  unfold request, bind at 1, try_catch, fetch.
  destruct (net log (sent_request url options)) as [msg|r]; [discriminate|].
  intro H. exists r. split; [reflexivity|].
  destruct (ok r); [reflexivity|]. exfalso.
  apply bind_inv_returns in H as (d & l & _ & H). simpl in H.
  apply bind_inv_returns in H as (m & l' & _ & H). discriminate.
Qed.

(** ** Errors of the providers and of the orchestrator *)

Lemma raises_request_any (P : thrown -> Prop) net url options :
  (forall t, http_helper_error t -> P t) -> raises P (request net url options).
Proof. intro H. eapply raises_weaken; [exact H | apply request_raises]. Qed.

Lemma oraises_get_prop_any (P : thrown -> Prop) v k :
  (forall t, js_error t -> P t) -> oraises P (get_prop v k).
Proof. intros H t Ht. eapply H, oraises_get_prop, Ht. Qed.

Lemma oraises_startsWith v p : oraises js_error (startsWith v p).
Proof.
  intros t. destruct v; simpl; try discriminate;
    intro H; injection H as <-; red; eauto.
Qed.

Lemma oraises_avatar_url profile : oraises js_error (DiscordProvider.avatar_url profile).
Proof.
  unfold DiscordProvider.avatar_url.
  apply oraises_obind; [apply oraises_get_prop|]. intro hash.
  apply oraises_if; [|apply oraises_Returns].
  apply oraises_obind; [apply oraises_startsWith|]. intro animated.
  apply oraises_obind; [apply oraises_get_prop|]. intro id.
  apply oraises_Returns.
Qed.

Ltac raises_leaf :=
  first
    [ apply raises_ret
    | apply raises_request_any; tauto
    | apply raises_lift, oraises_get_prop_any; tauto
    | apply raises_lift, oraises_or_else; apply oraises_get_prop_any; tauto ].

Ltac raises_seq :=
  repeat (apply raises_bind; [solve [raises_leaf] | intro]); try raises_leaf.

(** The profile fetch of each variant raises nothing but what [request]
    raises and the language's own errors. *)
Lemma fetchUser_raises (v : Variant) net accessToken :
  raises http_helper_error (fetchUser (PROVIDERS v) net accessToken).
Proof.
  assert (J : forall t, js_error t -> http_helper_error t) by (intros; now left).
  destruct v; simpl.
  - unfold GitHubProvider.fetchUser. raises_seq.
    apply raises_bind; [|intro; raises_seq].
    apply raises_if; [|apply raises_ret].
    apply raises_try_catch. intro. apply raises_ret.
  - unfold GoogleProvider.fetchUser. raises_seq.
  - unfold DiscordProvider.fetchUser. raises_seq.
    apply raises_bind; [|intro; raises_seq].
    apply raises_lift. intros t Ht. apply J. eapply oraises_avatar_url, Ht.
Qed.

Lemma provider_new msg nm cd :
  nm <> "" -> OAuthError.provider (OAuthError.new msg (Str nm) cd) = Str nm.
Proof.
  intro H. unfold OAuthError.new, js_or; simpl.
  now rewrite (proj2 (String.eqb_neq nm "") H).
Qed.

Lemma name_nonempty (v : Variant) : name (PROVIDERS v) <> "".
Proof. destruct v; discriminate. Qed.

Lemma attributed_new msg nm cd :
  nm <> "" -> attributed_to nm (ThrowOAuth (OAuthError.new msg (Str nm) cd)).
Proof. intro H. eexists; split; [reflexivity | now apply provider_new]. Qed.

Lemma _extractParams_raises parseUrl self req :
  name (OAuthProvider.cls self) <> "" ->
  oraises (fun t => js_error t \/ attributed_to (name (OAuthProvider.cls self)) t)
          (OAuthProvider._extractParams parseUrl self req).
Proof.
  intros Hn t. unfold OAuthProvider._extractParams.
  destruct (_ && _); [discriminate|].
  destruct (Req.nextUrl req); [discriminate|].
  destruct (ToBoolean (Req.url req)).
  - destruct (parseUrl _ _); [discriminate|].
    intro H; injection H as <-. left. red; eauto.
  - intro H; injection H as <-. right. now apply attributed_new.
Qed.

Lemma _exchangeCode_raises net self code :
  name (OAuthProvider.cls self) <> "" ->
  raises (fun t => http_helper_error t \/ attributed_to (name (OAuthProvider.cls self)) t)
         (OAuthProvider._exchangeCode net self code).
Proof.
  intro Hn. unfold OAuthProvider._exchangeCode.
  assert (J : forall t, js_error t ->
                http_helper_error t \/ attributed_to (name (OAuthProvider.cls self)) t)
    by (intros; left; now left).
  raises_seq.
  apply raises_if; raises_seq.
  - apply raises_throw. right. now apply attributed_new.
  - apply raises_if; [|apply raises_ret].
    apply raises_throw. right. now apply attributed_new.
Qed.

(** Every error of [handleCallback] on an instance of one of the three
    variants is: one of the language's own errors; an error of [request]
    (null provider); one of the two validator errors (null provider), and
    those only when an expected state was supplied; or an error attributed
    to the instance. *)
Lemma handleCallback_raises (v : Variant) net parseUrl self req options :
  OAuthProvider.cls self = PROVIDERS v ->
  raises (fun t => http_helper_error t
                   \/ (ToBoolean (Options.state options) = true /\ state_error t)
                   \/ attributed_to (name (PROVIDERS v)) t)
         (OAuthProvider.handleCallback net parseUrl self req options).
Proof.
  intro Hcls. pose proof (name_nonempty v) as Hn.
  unfold OAuthProvider.handleCallback. rewrite Hcls.
  apply raises_bind.
  { apply raises_lift. intros t Ht.
    pose proof (_extractParams_raises parseUrl self req) as H.
    rewrite Hcls in H. destruct (H Hn t Ht) as [H'|H'].
    - left. now left.
    - right. now right. }
  intro params.
  apply raises_if.
  { apply raises_throw. right. right. now apply attributed_new. }
  apply raises_if.
  { apply raises_throw. right. right. now apply attributed_new. }
  apply raises_bind.
  { destruct (ToBoolean (Options.state options)) eqn:E; [|apply raises_ret].
    apply raises_lift. intros t Ht. right. left. split; [reflexivity|].
    eapply validateState_throws, Ht. }
  intros _. apply raises_bind.
  { pose proof (_exchangeCode_raises net self (Params.code params)) as H.
    rewrite Hcls in H. eapply raises_weaken; [|apply H, Hn].
    intros t [Ht|Ht]; tauto. }
  intro tokenData. apply raises_bind.
  { apply raises_lift, oraises_get_prop_any. intros; left; now left. }
  intro access_token. apply raises_bind.
  { eapply raises_weaken; [|apply fetchUser_raises]. tauto. }
  intro user. apply raises_bind.
  { apply raises_lift, oraises_get_prop_any. intros; left; now left. }
  intro. apply raises_ret.
Qed.

(** ** The callback *)

(** Once the parameters are extracted, [handleCallback] runs its checks in
    the order of the source. *)
Lemma handleCallback_extracted net parseUrl self req options params log :
  OAuthProvider._extractParams parseUrl self req = Returns params ->
  OAuthProvider.handleCallback net parseUrl self req options log =
    (if ToBoolean (Params.error params) then
       throw (ThrowOAuth (OAuthError.new
         (Params.errorDescription params
          ||| Str ("Authorization denied: " ++ ToString (Params.error params)))
         (Str (name (OAuthProvider.cls self))) (Params.error params)))
     else if negb (ToBoolean (Params.code params)) then
       throw (ThrowOAuth (OAuthError.new
         (Str "No authorization code received in callback")
         (Str (name (OAuthProvider.cls self))) (Str "MISSING_CODE")))
     else
       _ <- (if ToBoolean (Options.state options)
             then lift (validateState (Options.state options) (Params.state params))
             else ret tt) ;
       tokenData <- OAuthProvider._exchangeCode net self (Params.code params) ;
       access_token <- lift (get_prop tokenData "access_token") ;
       user <- fetchUser (OAuthProvider.cls self) net access_token ;
       access_token' <- lift (get_prop tokenData "access_token") ;
       ret (User.set_accessToken user access_token')) log.
Proof.
  intro H. unfold OAuthProvider.handleCallback.
  unfold bind at 1, lift at 1. now rewrite H.
Qed.

(** C1. When an expected state is supplied and the validator rejects the
    state of the callback, [handleCallback] throws without having issued
    any network request (the request log is unchanged): it throws the
    validator's error, STATE_MISSING or STATE_MISMATCH, unless one of the
    two earlier checks (provider error, missing code) already threw. *)
Theorem handleCallback_state_failure_before_network
    net parseUrl self req options params t log :
  OAuthProvider._extractParams parseUrl self req = Returns params ->
  ToBoolean (Options.state options) = true ->
  validateState (Options.state options) (Params.state params) = Throws t ->
  state_error t
  /\ (exists t', OAuthProvider.handleCallback net parseUrl self req options log
                 = (Throws t', log))
  /\ (ToBoolean (Params.error params) = false ->
      ToBoolean (Params.code params) = true ->
      OAuthProvider.handleCallback net parseUrl self req options log = (Throws t, log)).
Proof.
  intros Hx Hs Hv.
  rewrite (handleCallback_extracted _ _ _ _ _ _ _ Hx).
  split; [exact (validateState_throws _ _ _ Hv)|].
  destruct (ToBoolean (Params.error params)); [split; [eexists; reflexivity | discriminate]|].
  destruct (ToBoolean (Params.code params)); simpl;
    [|split; [eexists; reflexivity | discriminate]].
  rewrite Hs. unfold bind at 1, lift at 1. rewrite Hv.
  split; [eexists; reflexivity | reflexivity].
Qed.

Lemma handleCallback_state_failure_before_network_witness :
  OAuthProvider.handleCallback Example.offline Example.no_urls (Example.instance github)
    (Example.express [("code", Str "c0de"); ("state", Str "forged")])
    (Example.expecting "issued") []
  = (Throws (ThrowOAuth STATE_MISMATCH), []).
Proof.
  refine (proj2 (proj2 (handleCallback_state_failure_before_network
            Example.offline Example.no_urls (Example.instance github)
            (Example.express [("code", Str "c0de"); ("state", Str "forged")])
            (Example.expecting "issued")
            {| Params.code := Str "c0de"; Params.state := Str "forged";
               Params.error := Null; Params.errorDescription := Null |}
            (ThrowOAuth STATE_MISMATCH) [] _ _ _)) _ _); reflexivity.
Defined.

(** C2. When the extracted parameters carry an [error], [handleCallback]
    throws an error whose code is that provider token, attributed to the
    instance, before any other check and whatever [code] and the expected
    state are; when they carry neither [error] nor [code], it throws
    MISSING_CODE.  Neither case issues a network request. *)
Theorem handleCallback_error_precedence
    net parseUrl self req options params log :
  OAuthProvider._extractParams parseUrl self req = Returns params ->
  (ToBoolean (Params.error params) = true ->
     exists e,
       OAuthProvider.handleCallback net parseUrl self req options log
         = (Throws (ThrowOAuth e), log)
       /\ OAuthError.code e = Params.error params
       /\ OAuthError.message e =
            ToString (Params.errorDescription params
                      ||| Str ("Authorization denied: " ++ ToString (Params.error params))))
  /\ (ToBoolean (Params.error params) = false ->
      ToBoolean (Params.code params) = false ->
      exists e,
        OAuthProvider.handleCallback net parseUrl self req options log
          = (Throws (ThrowOAuth e), log)
        /\ OAuthError.code e = Str "MISSING_CODE").
Proof.
  intro Hx. rewrite (handleCallback_extracted _ _ _ _ _ _ _ Hx).
  split.
  - intro He. rewrite He. eexists; split; [reflexivity|]. split.
    + unfold OAuthError.new, js_or at 1; simpl. unfold js_or. now rewrite He.
    + unfold OAuthError.new; simpl.
      destruct (Params.errorDescription params ||| _) eqn:E; try reflexivity.
      exfalso. unfold js_or in E.
      destruct (ToBoolean (Params.errorDescription params)) eqn:E'; [|discriminate].
      rewrite E in E'. discriminate.
  - intros He Hc. rewrite He, Hc. simpl. eexists; split; reflexivity.
Qed.

Lemma handleCallback_error_precedence_witness :
  (exists e,
     OAuthProvider.handleCallback Example.offline Example.no_urls (Example.instance discord)
       (Example.express [("error", Str "access_denied"); ("code", Str "c0de")])
       (Example.expecting "issued") []
       = (Throws (ThrowOAuth e), [])
     /\ OAuthError.code e = Str "access_denied")
  /\ (exists e,
       OAuthProvider.handleCallback Example.offline Example.no_urls (Example.instance discord)
         (Example.express [("state", Str "issued")]) (Example.expecting "issued") []
         = (Throws (ThrowOAuth e), [])
       /\ OAuthError.code e = Str "MISSING_CODE").
Proof.
  split.
  - destruct (proj1 (handleCallback_error_precedence
        Example.offline Example.no_urls (Example.instance discord)
        (Example.express [("error", Str "access_denied"); ("code", Str "c0de")])
        (Example.expecting "issued")
        {| Params.code := Str "c0de"; Params.state := Null;
           Params.error := Str "access_denied"; Params.errorDescription := Null |}
        [] eq_refl) eq_refl) as (e & H & Hc & _).
    exists e. split; assumption.
  - exact (proj2 (handleCallback_error_precedence
        Example.offline Example.no_urls (Example.instance discord)
        (Example.express [("state", Str "issued")]) (Example.expecting "issued")
        {| Params.code := Null; Params.state := Str "issued";
           Params.error := Null; Params.errorDescription := Null |}
        [] eq_refl) eq_refl eq_refl).
Defined.

Lemma state_error_not_helper t : state_error t -> ~ http_helper_error t.
Proof.
  intros [-> | ->] [[k [m H]] | [e [H [_ [Hc | Hc]]]]];
    try discriminate; injection H as <-; discriminate.
Qed.

Lemma state_error_not_attributed nm t : state_error t -> ~ attributed_to nm t.
Proof.
  intros [-> | ->] [e [H Hp]]; injection H as <-; discriminate.
Qed.

(** C10. When the supplied [options.state] is falsy (absent, [undefined],
    [null] or the empty string), [handleCallback] performs no state check:
    it raises neither STATE_MISSING nor STATE_MISMATCH, and its result does
    not depend on the state parameter of the callback request, only on the
    three other extracted parameters. *)
Theorem handleCallback_no_state_check_without_expected
    (v : Variant) net parseUrl self req options log :
  OAuthProvider.cls self = PROVIDERS v ->
  ToBoolean (Options.state options) = false ->
  (forall t log',
      OAuthProvider.handleCallback net parseUrl self req options log = (Throws t, log') ->
      ~ state_error t)
  /\ (forall req' params params',
        OAuthProvider._extractParams parseUrl self req = Returns params ->
        OAuthProvider._extractParams parseUrl self req' = Returns params' ->
        Params.code params' = Params.code params ->
        Params.error params' = Params.error params ->
        Params.errorDescription params' = Params.errorDescription params ->
        OAuthProvider.handleCallback net parseUrl self req' options log
        = OAuthProvider.handleCallback net parseUrl self req options log).
Proof.
  intros Hcls Hs. split.
  - intros t log' H Hst.
    destruct (handleCallback_raises v net parseUrl self req options Hcls _ _ _ H)
      as [Hh | [[Hs' _] | Ha]].
    + exact (state_error_not_helper _ Hst Hh).
    + congruence.
    + exact (state_error_not_attributed _ _ Hst Ha).
  - intros req' params params' Hx Hx' Hc He Hd.
    rewrite (handleCallback_extracted _ _ _ _ _ _ _ Hx),
            (handleCallback_extracted _ _ _ _ _ _ _ Hx').
    rewrite Hc, He, Hd, Hs. reflexivity.
Qed.

Lemma handleCallback_no_state_check_without_expected_witness :
  OAuthProvider.handleCallback Example.offline Example.no_urls (Example.instance google)
    (Example.express [("code", Str "c0de"); ("state", Str "forged")])
    (Example.expecting "") []
  = OAuthProvider.handleCallback Example.offline Example.no_urls (Example.instance google)
      (Example.express [("code", Str "c0de")]) (Example.expecting "") []
  /\ ~ state_error
        (ThrowOAuth (OAuthError.new
           (Str "Network request to https://oauth2.googleapis.com/token failed: getaddrinfo ENOTFOUND")
           Null (Str "NETWORK_ERROR"))).
Proof.
  split.
  - exact (proj2 (handleCallback_no_state_check_without_expected
      google Example.offline Example.no_urls (Example.instance google)
      (Example.express [("code", Str "c0de")]) (Example.expecting "") []
      eq_refl eq_refl)
      (Example.express [("code", Str "c0de"); ("state", Str "forged")])
      {| Params.code := Str "c0de"; Params.state := Null;
         Params.error := Null; Params.errorDescription := Null |}
      {| Params.code := Str "c0de"; Params.state := Str "forged";
         Params.error := Null; Params.errorDescription := Null |}
      eq_refl eq_refl eq_refl eq_refl eq_refl).
  - exact (proj1 (handleCallback_no_state_check_without_expected
      google Example.offline Example.no_urls (Example.instance google)
      (Example.express [("code", Str "c0de"); ("state", Str "forged")])
      (Example.expecting "") [] eq_refl eq_refl)
      _
      [sent_request (tokenUrl (PROVIDERS google))
         (token_request (Example.instance google) (Str "c0de"))]
      eq_refl).
Defined.

(** C4, as the code has it.  The orchestrator's own errors are attributed
    to the instance: the constructor's CONFIG_ERROR, and every error of
    [handleCallback] that is not one of the shared helpers'.  The helpers'
    errors carry a [null] provider: NETWORK_ERROR and HTTP_ERROR of
    [request], STATE_MISSING and STATE_MISMATCH of [validateState]. *)
Theorem error_attribution (v : Variant) :
  (forall config t,
      OAuthProvider.constructor (PROVIDERS v) config = Throws t ->
      exists e, t = ThrowOAuth e
                /\ OAuthError.provider e = Str (name (PROVIDERS v))
                /\ OAuthError.code e = Str "CONFIG_ERROR")
  /\ (forall net parseUrl self req options log e log',
        OAuthProvider.cls self = PROVIDERS v ->
        OAuthProvider.handleCallback net parseUrl self req options log
          = (Throws (ThrowOAuth e), log') ->
        OAuthError.provider e = Str (name (PROVIDERS v))
        \/ (OAuthError.provider e = Null
            /\ (OAuthError.code e = Str "NETWORK_ERROR"
                \/ OAuthError.code e = Str "HTTP_ERROR"
                \/ OAuthError.code e = Str "STATE_MISSING"
                \/ OAuthError.code e = Str "STATE_MISMATCH")))
  /\ (forall net url options log e log',
        request net url options log = (Throws (ThrowOAuth e), log') ->
        OAuthError.provider e = Null
        /\ (OAuthError.code e = Str "NETWORK_ERROR"
            \/ OAuthError.code e = Str "HTTP_ERROR"))
  /\ (forall expected received e,
        validateState expected received = Throws (ThrowOAuth e) ->
        OAuthError.provider e = Null
        /\ (OAuthError.code e = Str "STATE_MISSING"
            \/ OAuthError.code e = Str "STATE_MISMATCH")).
Proof.
  split; [|split; [|split]].
  - intros config t. unfold OAuthProvider.constructor.
    destruct (ToBoolean (Config.clientId config)),
             (ToBoolean (Config.clientSecret config)),
             (ToBoolean (Config.redirectUri config)); simpl;
      try discriminate;
      intro H; injection H as <-; eexists; (split; [reflexivity|]);
      (split; [apply provider_new, name_nonempty | reflexivity]).
  - intros net parseUrl self req options log e log' Hcls H.
    destruct (handleCallback_raises v net parseUrl self req options Hcls _ _ _ H)
      as [[[k [m Hj]] | [e' [He' [Hp Hc]]]] | [[_ [Hst | Hst]] | [e' [He' Hp]]]];
      try discriminate.
    + injection He' as <-. right. split; [assumption|]. tauto.
    + injection Hst as ->. right. split; [reflexivity|]. tauto.
    + injection Hst as ->. right. split; [reflexivity|]. tauto.
    + injection He' as <-. now left.
  - intros net url options log e log' H.
    destruct (request_raises net url options _ _ _ H) as [[k [m Hj]] | [e' [He' Hh]]];
      [discriminate|].
    injection He' as <-. exact Hh.
  - intros expected received e H.
    destruct (validateState_throws _ _ _ H) as [Hst | Hst]; injection Hst as ->;
      (split; [reflexivity|]); [now left | now right].
Qed.

Lemma error_attribution_witness :
  (exists e,
     OAuthProvider.constructor (PROVIDERS github)
       {| Config.clientId := Str "client-1"; Config.clientSecret := Str "";
          Config.redirectUri := Str "http://localhost:3000/auth/callback";
          Config.scopes := None |} = Throws (ThrowOAuth e)
     /\ OAuthError.provider e = Str "github"
     /\ OAuthError.code e = Str "CONFIG_ERROR")
  /\ (OAuthError.provider
        (OAuthError.new (Str "No authorization code received in callback")
                        (Str "github") (Str "MISSING_CODE"))
      = Str (name (PROVIDERS github))
      \/ (OAuthError.provider
            (OAuthError.new (Str "No authorization code received in callback")
                            (Str "github") (Str "MISSING_CODE")) = Null
          /\ (Str "MISSING_CODE" = Str "NETWORK_ERROR"
              \/ Str "MISSING_CODE" = Str "HTTP_ERROR"
              \/ Str "MISSING_CODE" = Str "STATE_MISSING"
              \/ Str "MISSING_CODE" = Str "STATE_MISMATCH"))).
Proof.
  split.
  - destruct (proj1 (error_attribution github)
                {| Config.clientId := Str "client-1"; Config.clientSecret := Str "";
                   Config.redirectUri := Str "http://localhost:3000/auth/callback";
                   Config.scopes := None |} _ eq_refl) as (e & He & Hp & Hc).
    exists e. split; [|split; assumption].
    injection He as <-. reflexivity.
  - exact (proj1 (proj2 (error_attribution github))
             Example.offline Example.no_urls (Example.instance github)
             (Example.express [("state", Str "issued")]) Options.empty []
             (OAuthError.new (Str "No authorization code received in callback")
                             (Str "github") (Str "MISSING_CODE"))
             [] eq_refl eq_refl).
Defined.

(** C4 as stated fails: with the network down, the token exchange of a
    Google instance throws a NETWORK_ERROR whose provider is [null], not
    ["google"]. *)
Lemma error_attribution_counterexample :
  exists e,
    OAuthProvider.handleCallback Example.offline Example.no_urls (Example.instance google)
      (Example.express [("code", Str "c0de")]) Options.empty []
    = (Throws (ThrowOAuth e),
       [sent_request "https://oauth2.googleapis.com/token"
          {| method := Some "POST";
             headers := [("Content-Type", "application/x-www-form-urlencoded");
                         ("Accept", "application/json")];
             body := Some "client_id=client-1&client_secret=s3cret&code=c0de&redirect_uri=http%3A%2F%2Flocalhost%3A3000%2Fauth%2Fcallback&grant_type=authorization_code" |}])
    /\ OAuthError.code e = Str "NETWORK_ERROR"
    /\ OAuthError.provider e = Null
    /\ OAuthError.provider e <> Str (name (OAuthProvider.cls (Example.instance google))).
Proof.
  eexists. split; [vm_compute; reflexivity|].
  split; [reflexivity|]. split; [reflexivity | discriminate].
Qed.

(** ** The redirect URL *)

Lemma query_of_getRedirectUrl (v : Variant) self options :
  OAuthProvider.cls self = PROVIDERS v ->
  URLSearchParams.parse (query_of (OAuthProvider.getRedirectUrl self options))
  = OAuthProvider.redirectParams self options.
Proof.
  intro Hcls. unfold query_of, OAuthProvider.getRedirectUrl.
  change (?a ++ "?" ++ ?b) with (a ++ String "?" b).
  rewrite cut_app by (rewrite Hcls; now destruct v).
  apply parse_toString.
Qed.

(** C5, as the code has it.  The [scope] parameter of the URL that
    [getRedirectUrl] produces is the space-joined per-call override when
    one is given, else the space-joined scopes of the instance, which are
    the configured ones or else the defaults of the variant.  With neither
    an override nor configured scopes the parameter is not empty; an empty
    list given by the caller is passed through. *)
Theorem getRedirectUrl_scope (v : Variant) :
  (forall self options,
      OAuthProvider.cls self = PROVIDERS v ->
      URLSearchParams.get "scope"
        (URLSearchParams.parse (query_of (OAuthProvider.getRedirectUrl self options)))
      = Str (join " " match Options.scopes options with
                      | Some l => l
                      | None => OAuthProvider.scopes self
                      end))
  /\ (forall config self,
        OAuthProvider.constructor (PROVIDERS v) config = Returns self ->
        OAuthProvider.cls self = PROVIDERS v
        /\ OAuthProvider.scopes self = match Config.scopes config with
                                       | Some l => l
                                       | None => defaultScopes (PROVIDERS v)
                                       end)
  /\ defaultScopes (PROVIDERS v) <> []
  /\ join " " (defaultScopes (PROVIDERS v)) <> "".
Proof.
  split; [|split; [|split]].
  - intros self options Hcls.
    rewrite (query_of_getRedirectUrl v) by assumption.
    unfold OAuthProvider.redirectParams. rewrite Hcls.
    destruct v; simpl; destruct (ToBoolean (Options.state options)); reflexivity.
  - intros config self. unfold OAuthProvider.constructor.
    destruct (ToBoolean (Config.clientId config)),
             (ToBoolean (Config.clientSecret config)),
             (ToBoolean (Config.redirectUri config)); simpl; try discriminate.
    intro H; injection H as <-. split; reflexivity.
  - destruct v; discriminate.
  - destruct v; discriminate.
Qed.

Lemma getRedirectUrl_scope_witness :
  URLSearchParams.get "scope"
    (URLSearchParams.parse (query_of
       (OAuthProvider.getRedirectUrl (Example.instance github)
          {| Options.scopes := Some ["read:user"; "repo"]; Options.state := Str "5f0e" |})))
  = Str "read:user repo"
  /\ URLSearchParams.get "scope"
       (URLSearchParams.parse (query_of
          (OAuthProvider.getRedirectUrl (Example.instance github) Options.empty)))
     = Str "read:user user:email"
  /\ OAuthProvider.scopes (Example.instance github) = ["read:user"; "user:email"].
Proof.
  split; [|split].
  - exact (proj1 (getRedirectUrl_scope github) (Example.instance github)
             {| Options.scopes := Some ["read:user"; "repo"]; Options.state := Str "5f0e" |}
             eq_refl).
  - exact (proj1 (getRedirectUrl_scope github) (Example.instance github)
             Options.empty eq_refl).
  - exact (proj2 (proj1 (proj2 (getRedirectUrl_scope github))
                    Example.config (Example.instance github) eq_refl)).
Defined.

(** C5 as stated fails: an empty per-call override yields an empty
    [scope] parameter. *)
Lemma getRedirectUrl_scope_counterexample :
  OAuthProvider.getRedirectUrl (Example.instance github)
    {| Options.scopes := Some []; Options.state := Undefined |}
  = "https://github.com/login/oauth/authorize?client_id=client-1&redirect_uri=http%3A%2F%2Flocalhost%3A3000%2Fauth%2Fcallback&response_type=code&scope="
  /\ URLSearchParams.get "scope"
       (URLSearchParams.parse (query_of
          (OAuthProvider.getRedirectUrl (Example.instance github)
             {| Options.scopes := Some []; Options.state := Undefined |})))
     = Str "".
Proof. split; reflexivity. Qed.

(** ** The token exchange *)

Lemma _exchangeCode_unfold net self code :
  OAuthProvider._exchangeCode net self code =
  (data <- request net (tokenUrl (OAuthProvider.cls self)) (token_request self code) ;
   err <- lift (get_prop data "error") ;
   if ToBoolean err then
     description <- lift (get_prop data "error_description") ;
     throw (ThrowOAuth (OAuthError.new
       (description ||| Str ("Token exchange failed: " ++ ToString err))
       (Str (name (OAuthProvider.cls self))) (Str "TOKEN_ERROR")))
   else
     access_token <- lift (get_prop data "access_token") ;
     if negb (ToBoolean access_token) then
       throw (ThrowOAuth (OAuthError.new
         (Str "No access token received from provider")
         (Str (name (OAuthProvider.cls self))) (Str "TOKEN_ERROR")))
     else ret data).
Proof. reflexivity. Qed.













(** ** The profile fetches *)

Lemma find_first_primary_verified items :
  forallb not_nullish items = true ->
  find_first GitHubProvider.primary_and_verified items
  = Returns (found primary_verified items).
Proof.
  unfold found. induction items as [|e items IH]; simpl; [reflexivity|].
  intro H. apply andb_true_iff in H as [He Hi].
  destruct e; try discriminate; try (simpl; apply IH, Hi).
  unfold GitHubProvider.primary_and_verified, primary_verified, marked. simpl.
  destruct (ToBoolean _) eqn:E1; simpl; [|apply IH, Hi].
  destruct (ToBoolean match lookup "verified" fields with
                      | Some x => x
                      | None => Undefined
                      end) eqn:E2; simpl; [reflexivity | apply IH, Hi].
Qed.

Lemma find_first_verified items :
  forallb not_nullish items = true ->
  find_first GitHubProvider.verified items = Returns (found (marked "verified") items).
Proof.
  unfold found. induction items as [|e items IH]; simpl; [reflexivity|].
  intro H. apply andb_true_iff in H as [He Hi].
  destruct e; try discriminate; try (simpl; apply IH, Hi).
  unfold GitHubProvider.verified, marked. simpl.
  destruct (ToBoolean _) eqn:E1; simpl; [reflexivity | apply IH, Hi].
Qed.

(** What the secondary lookup selects from a list of entries. *)
Lemma pick_email_objects items :
  forallb not_nullish items = true ->
  GitHubProvider.pick_email (Arr items) (found primary_verified items)
  = Returns (get_prop_opt (found primary_verified items) "email"
             ||| get_prop_opt (found (marked "verified") items) "email"
             ||| Null).
Proof.
  intro H. unfold GitHubProvider.pick_email, or_else. simpl.
  rewrite (find_first_verified _ H). unfold js_or at 2.
  destruct (ToBoolean (get_prop_opt (found primary_verified items) "email")) eqn:E;
    simpl; unfold js_or; rewrite !E; reflexivity.
Qed.


Lemma bind_snd_no_io {A B} (m : M A) (k : A -> M B) log :
  (forall a, no_io (k a)) -> snd (bind m k log) = snd (m log).
Proof.
  intro Hk. unfold bind. destruct (m log) as [[a|t] l]; [apply Hk | reflexivity].
Qed.

(** A [try] whose handler returns a value always returns, on the log the
    body left. *)
Lemma try_catch_default {A} (body : M A) (d : A) log :
  exists a, try_catch body (fun _ => ret d) log = (Returns a, snd (body log))
            /\ (forall t l, body log = (Throws t, l) -> a = d)
            /\ (forall x l, body log = (Returns x, l) -> a = x).
Proof.
  unfold try_catch. destruct (body log) as [[x|t] l]; simpl.
  - exists x. repeat split; congruence.
  - exists d. repeat split; congruence.
Qed.

(** The secondary lookup of GitHub's [fetchUser]: it issues one request
    and never throws. *)
Lemma github_secondary_lookup net accessToken log1 :
  exists email,
    try_catch
      (emails <- request net github_emails_url (github_request accessToken) ;
       primary <- lift (array_find emails GitHubProvider.primary_and_verified) ;
       lift (GitHubProvider.pick_email emails primary))
      (fun _ => ret Null) log1
    = (Returns email,
       (log1 ++ [sent_request github_emails_url (github_request accessToken)])%list)
    /\ (forall t l,
          request net github_emails_url (github_request accessToken) log1 = (Throws t, l) ->
          email = Null)
    /\ (forall items l,
          request net github_emails_url (github_request accessToken) log1
            = (Returns (Arr items), l) ->
          forallb not_nullish items = true ->
          email = get_prop_opt (found primary_verified items) "email"
                  ||| get_prop_opt (found (marked "verified") items) "email"
                  ||| Null).
Proof.
  match goal with
  | |- exists _, try_catch ?b _ _ = _ /\ _ =>
      destruct (try_catch_default b Null log1) as (email & Htry & Hthrow & Hret)
  end.
  exists email. split; [|split].
  - rewrite Htry. f_equal.
    rewrite bind_snd_no_io, request_log; [reflexivity|].
    intro emails. apply no_io_bind; [apply no_io_lift | intro; apply no_io_lift].
  - intros t l Hreq. apply (Hthrow t l). now run Hreq.
  - intros items l Hreq Hobj. apply (Hret _ l). run Hreq.
    simpl array_find. rewrite (find_first_primary_verified _ Hobj).
    unfold bind, lift. now rewrite (pick_email_objects _ Hobj).
Qed.




Lemma get_prop_opt_eq v k x : get_prop v k = Returns x -> x = get_prop_opt v k.
Proof. destruct v; simpl; try discriminate; intro H; now injection H. Qed.


Ltac invert_returns H :=
  repeat
    (let a := fresh "x" in
     let l := fresh "l" in
     let H1 := fresh "Hstep" in
     apply bind_inv_returns in H as (a & l & H1 & H);
     try (unfold lift in H1; injection H1 as H1 <-)).

Lemma or_else_get_prop_opt v k1 k2 x :
  or_else (get_prop v k1) (get_prop v k2) = Returns x ->
  x = get_prop_opt v k1 ||| get_prop_opt v k2.
Proof.
  unfold or_else, js_or. destruct v; simpl; try discriminate;
    try (intro H; now injection H).
  destruct (ToBoolean _); intro H; now injection H.
Qed.

(** C9, as the code has it.  For every variant, the user a successful
    profile fetch returns has a string [id], the stringified [id] of the
    profile (for an integer the language represents exactly, its decimal
    numeral), and carries the name of the variant.  Its [name] is the name
    field of the profile ([name], for Discord [global_name]) when that is
    a non-empty string; when that field is absent or empty, it is what the
    profile has under the fallback field of the variant ([login] for
    GitHub, [username] for Discord), [undefined] if nothing, and for
    Google, which has no fallback, [null]. *)
Theorem fetchUser_shape (v : Variant) net accessToken log user log' :
  fetchUser (PROVIDERS v) net accessToken log = (Returns user, log') ->
  User.id user = Str (ToString (get_prop_opt (User.raw user) "id"))
  /\ is_string (User.id user) = true
  /\ (forall n, safe_integer n = true ->
                get_prop_opt (User.raw user) "id" = Num n ->
                User.id user = Str (NilZero.string_of_int (Z.to_int n)))
  /\ User.provider user = Str (name (PROVIDERS v))
  /\ User.name user = display_name v (User.raw user)
  /\ (forall s, s <> "" ->
                get_prop_opt (User.raw user) (name_field v) = Str s ->
                User.name user = Str s)
  /\ (ToBoolean (get_prop_opt (User.raw user) (name_field v)) = false ->
      User.name user = match fallback_field v with
                       | Some k => get_prop_opt (User.raw user) k
                       | None => Null
                       end).
Proof.
  intro H.
  assert (G : User.id user = Str (ToString (get_prop_opt (User.raw user) "id"))
              /\ User.provider user = Str (name (PROVIDERS v))
              /\ User.name user = display_name v (User.raw user)).
  { destruct v; simpl in H.
    - unfold GitHubProvider.fetchUser in H. invert_returns H.
      injection H as <- _. simpl.
      rewrite (get_prop_opt_eq _ _ _ Hstep2), (or_else_get_prop_opt _ _ _ _ Hstep3).
      repeat split.
    - unfold GoogleProvider.fetchUser in H. invert_returns H.
      injection H as <- _. simpl.
      rewrite (get_prop_opt_eq _ _ _ Hstep0), (get_prop_opt_eq _ _ _ Hstep2).
      repeat split.
    - unfold DiscordProvider.fetchUser in H. invert_returns H.
      injection H as <- _. simpl.
      rewrite (get_prop_opt_eq _ _ _ Hstep1), (or_else_get_prop_opt _ _ _ _ Hstep3).
      repeat split. }
  destruct G as (Gid & Gp & Gn).
  split; [exact Gid|]. split; [now rewrite Gid|].
  split; [intros n _ Hn; now rewrite Gid, Hn|].
  split; [exact Gp|]. split; [exact Gn|].
  split.
  - intros s Hs Hname. rewrite Gn.
    assert (T : ToBoolean (Str s) = true) by now apply ToBoolean_Str.
    destruct v; cbn [display_name name_field] in *; unfold js_or;
      now rewrite Hname, T.
  - intro Hf. rewrite Gn.
    destruct v; cbn [display_name name_field fallback_field] in *; unfold js_or;
      now rewrite Hf.
Qed.

(** ** The profile fetches on concrete responses *)



Lemma fetchUser_shape_witness :
  (exists user,
     fetchUser (PROVIDERS github)
       (Example.github_api
          (Example.json_response 200
             (Obj [("id", Num 583231); ("login", Str "octocat");
                   ("email", Str "octocat@example.com")]))
          Example.offline_result)
       (Str "gho_16C7e42F") []
     = (Returns user,
        [sent_request "https://api.github.com/user" (github_request (Str "gho_16C7e42F"))])
     /\ User.id user = Str "583231"
     /\ User.name user = Str "octocat")
  /\ (exists user,
        fetchUser (PROVIDERS discord)
          (Example.serving (Example.json_response 200 (Obj []))
             (Example.json_response 200
                (Obj [("id", Str "80351110224678912"); ("global_name", Str "Nelly")])))
          (Str "tok") []
        = (Returns user, [sent_request discord_profile_url (bearer_request (Str "tok"))])
        /\ User.name user = Str "Nelly")
  /\ (exists user,
        fetchUser (PROVIDERS discord)
          (Example.serving (Example.json_response 200 (Obj []))
             (Example.json_response 200 (Obj [("id", Str "80351110224678912")])))
          (Str "tok") []
        = (Returns user, [sent_request discord_profile_url (bearer_request (Str "tok"))])
        /\ User.name user = Undefined).
Proof.
  split; [|split].
  - eexists. split; [vm_compute; reflexivity|].
    match goal with
    | |- User.id ?u = _ /\ _ =>
        destruct (fetchUser_shape github
                    (Example.github_api
                       (Example.json_response 200
                          (Obj [("id", Num 583231); ("login", Str "octocat");
                                ("email", Str "octocat@example.com")]))
                       Example.offline_result)
                    (Str "gho_16C7e42F") [] u
                    [sent_request "https://api.github.com/user"
                       (github_request (Str "gho_16C7e42F"))]
                    eq_refl)
          as (_ & _ & Hnum & _ & _ & _ & Hfallback)
    end.
    split; [exact (Hnum 583231%Z eq_refl eq_refl) | exact (Hfallback eq_refl)].
  - eexists. split; [vm_compute; reflexivity|].
    match goal with
    | |- User.name ?u = _ =>
        destruct (fetchUser_shape discord
                    (Example.serving (Example.json_response 200 (Obj []))
                       (Example.json_response 200
                          (Obj [("id", Str "80351110224678912");
                                ("global_name", Str "Nelly")])))
                    (Str "tok") [] u
                    [sent_request discord_profile_url (bearer_request (Str "tok"))]
                    eq_refl)
          as (_ & _ & _ & _ & _ & Hname & _)
    end.
    apply (Hname "Nelly"); [discriminate | reflexivity].
  - eexists. split; [vm_compute; reflexivity|].
    match goal with
    | |- User.name ?u = _ =>
        destruct (fetchUser_shape discord
                    (Example.serving (Example.json_response 200 (Obj []))
                       (Example.json_response 200 (Obj [("id", Str "80351110224678912")])))
                    (Str "tok") [] u
                    [sent_request discord_profile_url (bearer_request (Str "tok"))]
                    eq_refl)
          as (_ & _ & _ & _ & _ & _ & Hfallback)
    end.
    exact (Hfallback eq_refl).
Defined.

(** C9 as stated fails: a Google profile without a name gives a user
    whose [name] is [null], not a string. *)
Lemma fetchUser_shape_counterexample :
  exists user,
    fetchUser (PROVIDERS google)
      (Example.serving (Example.json_response 200 (Obj []))
         (Example.json_response 200
            (Obj [("id", Str "108204268033311374519");
                  ("email", Str "jane@example.com")])))
      (Str "ya29.a0Af") []
    = (Returns user,
       [sent_request "https://www.googleapis.com/oauth2/v2/userinfo"
          (bearer_request (Str "ya29.a0Af"))])
    /\ User.name user = Null
    /\ is_string (User.name user) = false.
Proof.
  eexists. split; [vm_compute; reflexivity|]. split; reflexivity.
Qed.

(* ================================================================== *)
(** * Further properties of the code *)
(* ================================================================== *)

(** ** The state token *)

Lemma toString_hex_length buf : String.length (toString_hex buf) = (2 * length buf)%nat.
Proof. induction buf as [|b buf IH]; simpl; [reflexivity | rewrite IH; lia]. Qed.

Lemma toString_hex_digits buf : all_chars is_hex_lower (toString_hex buf) = true.
Proof.
  induction buf as [|b buf IH]; simpl; [reflexivity|].
  rewrite IH. destruct b; reflexivity.
Qed.

Lemma from_hex_toString_hex buf : from_hex (toString_hex buf) = buf.
Proof.
  induction buf as [|b buf IH]; simpl; [reflexivity|].
  rewrite IH. destruct b; reflexivity.
Qed.

(** X1. With a random source that returns as many bytes as it is asked
    for, [generateState] returns a string of twice the requested length, 64
    characters when called without argument, made of lower-case hexadecimal
    digits only. *)
Theorem generateState_shape (randomBytes : RandomSource) (length : option nat) :
  (forall n, List.length (randomBytes n) = n) ->
  String.length (generateState randomBytes length)
    = (2 * match length with Some n => n | None => 32 end)%nat
  /\ all_chars is_hex_lower (generateState randomBytes length) = true.
Proof.
  intro H. unfold generateState. split.
  - now rewrite toString_hex_length, H.
  - apply toString_hex_digits.
Qed.

Lemma generateState_shape_witness :
  String.length (generateState (fun n => repeat Byte.xa7 n) None) = 64%nat
  /\ all_chars is_hex_lower (generateState (fun n => repeat Byte.xa7 n) None) = true.
Proof.
  apply (generateState_shape (fun n => repeat Byte.xa7 n) None).
  intro n. apply repeat_length.
Defined.

(** X2. The token determines the random bytes it was made from: when the
    random source returns different bytes on two calls, the two tokens
    differ. *)
Theorem generateState_distinct (rb1 rb2 : RandomSource) (length : option nat) :
  rb1 (match length with Some n => n | None => 32 end)
    <> rb2 (match length with Some n => n | None => 32 end) ->
  generateState rb1 length <> generateState rb2 length.
Proof.
  intros Hne Heq. apply Hne. unfold generateState in Heq.
  rewrite <- (from_hex_toString_hex (rb1 _)), <- (from_hex_toString_hex (rb2 _)).
  now rewrite Heq.
Qed.

Lemma generateState_distinct_witness :
  generateState (fun n => repeat Byte.x00 n) (Some 2)
  <> generateState (fun n => repeat Byte.x01 n) (Some 2).
Proof.
  apply (generateState_distinct (fun n => repeat Byte.x00 n)
                                (fun n => repeat Byte.x01 n) (Some 2)).
  discriminate.
Defined.

(** X3. The verdict of [validateState] does not depend on the order of its
    two arguments. *)
Theorem validateState_symmetric (a b : value) :
  validateState a b = validateState b a.
Proof.
  destruct (ToBoolean a) eqn:Ea, (ToBoolean b) eqn:Eb.
  - rewrite !validateState_present by assumption.
    now rewrite (String.eqb_sym (ToString a)).
  - rewrite !validateState_absent; [reflexivity | now rewrite Eb | now rewrite Ea, Eb].
  - rewrite !validateState_absent; [reflexivity | now rewrite Eb, Ea | now rewrite Ea].
  - rewrite !validateState_absent; [reflexivity | now rewrite Eb | now rewrite Ea].
Qed.

(** X4. On two non-empty strings, [validateState] succeeds exactly when
    [Buffer.from] gives both the same UTF-8 bytes, and fails with
    STATE_MISMATCH exactly when the bytes differ: what it compares is the
    encodings, not the strings. *)
Theorem validateState_compares_utf8 (x y : Utf16.jsstring) :
  x <> [] -> y <> [] ->
  (Utf16.validateState (Some x) (Some y) = Returns tt
   <-> Utf16.Buffer_from x = Utf16.Buffer_from y)
  /\ (Utf16.validateState (Some x) (Some y) = Throws (ThrowOAuth STATE_MISMATCH)
      <-> Utf16.Buffer_from x <> Utf16.Buffer_from y).
Proof.
  intros Hx Hy.
  destruct (validateState_on_buffers x y Hx Hy) as [Hsame Hdiff].
  destruct (list_eq_dec Byte.byte_eq_dec (Utf16.Buffer_from x) (Utf16.Buffer_from y))
    as [E|E].
  - rewrite (Hsame E). split; split; intro H;
      first [assumption | reflexivity | discriminate | contradiction].
  - rewrite (Hdiff E). split; split; intro H;
      first [assumption | reflexivity | discriminate | contradiction].
Qed.

Lemma validateState_compares_utf8_witness :
  Utf16.validateState (Some [0xD83D; 0xDE00]%N) (Some [0xD83D; 0xDE00]%N) = Returns tt
  /\ Utf16.validateState (Some [0xDC00]%N) (Some [0xFFFD]%N) = Returns tt
  /\ Utf16.validateState (Some [0xE9]%N) (Some [0x65; 0x301]%N)
     = Throws (ThrowOAuth STATE_MISMATCH).
Proof.
  split; [|split].
  - apply (proj1 (validateState_compares_utf8 [0xD83D; 0xDE00]%N [0xD83D; 0xDE00]%N
                    ltac:(discriminate) ltac:(discriminate))).
    reflexivity.
  - apply (proj1 (validateState_compares_utf8 [0xDC00]%N [0xFFFD]%N
                    ltac:(discriminate) ltac:(discriminate))).
    reflexivity.
  - apply (proj2 (validateState_compares_utf8 [0xE9]%N [0x65; 0x301]%N
                    ltac:(discriminate) ltac:(discriminate))).
    discriminate.
Defined.

(** X29. On well-formed strings, those without an unpaired surrogate,
    [validateState] tells any two different strings apart: both non-empty,
    of equal or of different length, they fail with STATE_MISMATCH. *)
Theorem validateState_well_formed_mismatch (x y : Utf16.jsstring) :
  Utf16.code_units x -> Utf16.code_units y ->
  Utf16.isWellFormed x = true -> Utf16.isWellFormed y = true ->
  x <> [] -> y <> [] -> x <> y ->
  Utf16.validateState (Some x) (Some y) = Throws (ThrowOAuth STATE_MISMATCH).
Proof.
  intros Cx Cy Wx Wy Hx Hy Hxy.
  apply (validateState_on_buffers x y Hx Hy).
  intro E. apply Hxy. now apply Buffer_from_well_formed_inj.
Qed.

Lemma validateState_well_formed_mismatch_witness :
  Utf16.validateState (Some (Utf16.of_ascii "k3y")) (Some (Utf16.of_ascii "k3z"))
  = Throws (ThrowOAuth STATE_MISMATCH)
  /\ Utf16.validateState (Some (Utf16.of_ascii "k3y")) (Some (Utf16.of_ascii "k3"))
     = Throws (ThrowOAuth STATE_MISMATCH)
  /\ Utf16.validateState (Some [0xD83D; 0xDE00]%N) (Some [0xD83D; 0xDE01]%N)
     = Throws (ThrowOAuth STATE_MISMATCH).
Proof.
  split; [|split].
  - apply validateState_well_formed_mismatch;
      first [discriminate | reflexivity | repeat constructor].
  - apply validateState_well_formed_mismatch;
      first [discriminate | reflexivity | repeat constructor].
  - apply validateState_well_formed_mismatch;
      first [discriminate | reflexivity | repeat constructor].
Defined.

(** X30. [validateState] fails with STATE_MISSING when either argument is
    absent ([undefined], or the empty string), whatever the other is; and
    it succeeds on [(x, x)] for every non-empty string [x], well-formed or
    not. *)
Theorem validateState_missing_and_same :
  (forall expected received,
      Utf16.ToBoolean expected = false \/ Utf16.ToBoolean received = false ->
      Utf16.validateState expected received = Throws (ThrowOAuth STATE_MISSING))
  /\ OAuthError.code STATE_MISSING = Str "STATE_MISSING"
  /\ (forall x, x <> [] -> Utf16.validateState (Some x) (Some x) = Returns tt)
  /\ OAuthError.code STATE_MISMATCH = Str "STATE_MISMATCH".
Proof.
  split; [|split; [reflexivity|split; [|reflexivity]]].
  - intros expected received H. unfold Utf16.validateState.
    destruct H as [-> | ->]; [reflexivity|].
    now destruct (Utf16.ToBoolean expected).
  - intros x Hx. now apply (validateState_on_buffers x x Hx Hx).
Qed.

Lemma validateState_missing_and_same_witness :
  Utf16.validateState None (Some (Utf16.of_ascii "k3y")) = Throws (ThrowOAuth STATE_MISSING)
  /\ Utf16.validateState (Some (Utf16.of_ascii "k3y")) (Some [])
     = Throws (ThrowOAuth STATE_MISSING)
  /\ Utf16.validateState (Some (Utf16.of_ascii "k3y")) (Some (Utf16.of_ascii "k3y"))
     = Returns tt
  /\ Utf16.validateState (Some [0xD800]%N) (Some [0xD800]%N) = Returns tt.
Proof.
  destruct validateState_missing_and_same as (Hmiss & _ & Hsame & _).
  split; [|split; [|split]].
  - apply Hmiss. left. reflexivity.
  - apply Hmiss. right. reflexivity.
  - apply Hsame. discriminate.
  - apply Hsame. discriminate.
Defined.

(** ** Construction *)

Lemma constructor_complete P config :
  complete config = true ->
  OAuthProvider.constructor P config = Returns (built P config).
Proof.
  unfold complete, OAuthProvider.constructor. intro H.
  apply andb_true_iff in H as [H H3]. apply andb_true_iff in H as [H1 H2].
  now rewrite H1, H2, H3.
Qed.

Lemma constructor_incomplete P config :
  complete config = false ->
  exists field,
    OAuthProvider.constructor P config = Throws (ThrowOAuth (CONFIG_ERROR P field)).
Proof.
  unfold complete, OAuthProvider.constructor, CONFIG_ERROR.
  destruct (ToBoolean (Config.clientId config)),
           (ToBoolean (Config.clientSecret config)),
           (ToBoolean (Config.redirectUri config)); simpl;
    try discriminate; intros _;
    first [ exists "clientId"; reflexivity
          | exists "clientSecret"; reflexivity
          | exists "redirectUri"; reflexivity ].
Qed.

(** X5. The constructor returns an instance exactly when [clientId],
    [clientSecret] and [redirectUri] are all present, and the instance
    then holds the three values as given; otherwise it throws CONFIG_ERROR
    for the first missing field, in that order. *)
Theorem constructor_requires_credentials (P : Provider) (config : Config.t) :
  (complete config = true ->
     OAuthProvider.constructor P config = Returns (built P config))
  /\ (ToBoolean (Config.clientId config) = false ->
      OAuthProvider.constructor P config = Throws (ThrowOAuth (CONFIG_ERROR P "clientId")))
  /\ (ToBoolean (Config.clientId config) = true ->
      ToBoolean (Config.clientSecret config) = false ->
      OAuthProvider.constructor P config
        = Throws (ThrowOAuth (CONFIG_ERROR P "clientSecret")))
  /\ (ToBoolean (Config.clientId config) = true ->
      ToBoolean (Config.clientSecret config) = true ->
      ToBoolean (Config.redirectUri config) = false ->
      OAuthProvider.constructor P config
        = Throws (ThrowOAuth (CONFIG_ERROR P "redirectUri")))
  /\ (forall p, OAuthProvider.constructor P config = Returns p ->
                complete config = true /\ p = built P config).
Proof.
  split; [apply constructor_complete|].
  unfold OAuthProvider.constructor, complete, built, CONFIG_ERROR.
  destruct (ToBoolean (Config.clientId config)),
           (ToBoolean (Config.clientSecret config)),
           (ToBoolean (Config.redirectUri config)); simpl;
    (split; [|split; [|split]]);
    try discriminate; try reflexivity;
    intros p H; try discriminate; injection H as <-; split; reflexivity.
Qed.

Lemma constructor_requires_credentials_witness :
  OAuthProvider.constructor (PROVIDERS discord) Example.config
    = Returns (Example.instance discord)
  /\ OAuthProvider.constructor (PROVIDERS discord)
       {| Config.clientId := Str "client-1"; Config.clientSecret := Undefined;
          Config.redirectUri := Str ""; Config.scopes := None |}
     = Throws (ThrowOAuth (CONFIG_ERROR (PROVIDERS discord) "clientSecret")).
Proof.
  split.
  - exact (proj1 (constructor_requires_credentials (PROVIDERS discord) Example.config)
             eq_refl).
  - exact (proj1 (proj2 (proj2 (constructor_requires_credentials (PROVIDERS discord)
             {| Config.clientId := Str "client-1"; Config.clientSecret := Undefined;
                Config.redirectUri := Str ""; Config.scopes := None |})))
             eq_refl eq_refl).
Defined.

Lemma obj_set_fresh {A} (k : string) (v : A) (l : list (string * A)) :
  ~ In k (map fst l) -> obj_set k v l = (l ++ [(k, v)])%list.
Proof.
  induction l as [|[k' v'] l IH]; simpl; [reflexivity|].
  intro H. destruct (String.eqb_spec k' k) as [->|Hne].
  - exfalso. apply H. now left.
  - rewrite IH; [reflexivity|]. intro Hin. apply H. now right.
Qed.

Lemma createOAuth_entries_valid entries :
  forall oauth,
    NoDup (map fst oauth ++ map fst entries) ->
    forallb valid_entry entries = true ->
    createOAuth_entries entries oauth = Returns (oauth ++ map client_for entries)%list.
Proof.
  induction entries as [|[key config] entries IH]; intros oauth Hnd Hv; simpl.
  - now rewrite app_nil_r.
  - simpl in Hv. apply andb_true_iff in Hv as [Hv Hrest].
    unfold valid_entry in Hv. unfold client_for at 1. simpl in *.
    destruct (PROVIDERS_get key) as [v| | |] eqn:E; try discriminate.
    rewrite (constructor_complete _ _ Hv). simpl.
    assert (Hfresh : ~ In key (map fst oauth)).
    { intro Hin. apply NoDup_remove_2 in Hnd. apply Hnd.
      apply in_or_app. now left. }
    rewrite (obj_set_fresh _ _ _ Hfresh).
    rewrite IH; [now rewrite <- app_assoc | | assumption].
    rewrite map_app, <- app_assoc. simpl. exact Hnd.
Qed.

(** X6. [createOAuth] never returns an empty client: without a
    configuration object, or with one that has no entry, it throws a plain
    [Error], and whatever it returns has at least one provider. *)
Theorem createOAuth_never_empty :
  createOAuth None
    = Throws (ThrowJs "Error" "createOAuth() requires a configuration object")
  /\ createOAuth (Some [])
     = Throws (ThrowJs "Error"
         "At least one provider must be configured (github, google, discord)")
  /\ (forall config clients,
        createOAuth config = Returns clients ->
        clients <> [] /\ exists e entries, config = Some (e :: entries)).
Proof.
  split; [reflexivity|]. split; [reflexivity|].
  intros [[|e entries]|] clients; try discriminate.
  unfold createOAuth.
  destruct (createOAuth_entries (e :: entries) []) as [oauth|t]; [|discriminate].
  simpl. destruct oauth as [|c oauth]; [discriminate|].
  intro H; injection H as <-. split; [discriminate | eauto].
Qed.

Lemma createOAuth_never_empty_witness :
  [("google", Instance (Example.instance google))] <> []
  /\ exists e entries, Some [("google", Example.config)] = Some (e :: entries).
Proof.
  exact (proj2 (proj2 createOAuth_never_empty)
           (Some [("google", Example.config)])
           [("google", Instance (Example.instance google))] eq_refl).
Defined.

Lemma PROVIDERS_get_registered key v :
  PROVIDERS_get key = RegisteredClass v -> key = name (PROVIDERS v).
Proof.
  unfold PROVIDERS_get.
  destruct (String.eqb_spec key "github") as [->|_]; [intro E; now injection E as <-|].
  destruct (String.eqb_spec key "google") as [->|_]; [intro E; now injection E as <-|].
  destruct (String.eqb_spec key "discord") as [->|_]; [intro E; now injection E as <-|].
  destruct (key =? "constructor"); [discriminate|].
  destruct (existsb _ _); discriminate.
Qed.

(** X7. For a configuration whose entries all name a registered provider
    and give it the three required fields, [createOAuth] returns an object
    with the same keys in the same order, each holding the instance the
    class of that name builds from the entry. *)
Theorem createOAuth_builds_every_entry (entries : list (string * Config.t)) :
  entries <> [] ->
  NoDup (map fst entries) ->
  forallb valid_entry entries = true ->
  createOAuth (Some entries) = Returns (map client_for entries)
  /\ map fst (map client_for entries) = map fst entries
  /\ (forall key config,
        In (key, config) entries ->
        exists v, key = name (PROVIDERS v)
                  /\ OAuthProvider.constructor (PROVIDERS v) config
                     = Returns (built (PROVIDERS v) config)
                  /\ In (key, Instance (built (PROVIDERS v) config))
                        (map client_for entries)).
Proof.
  intros Hne Hnd Hv. split; [|split].
  - unfold createOAuth. rewrite createOAuth_entries_valid by assumption. simpl.
    destruct entries; [contradiction | reflexivity].
  - rewrite map_map. apply map_ext. intros [key config]. unfold client_for. simpl.
    now destruct (PROVIDERS_get key).
  - intros key config Hin.
    pose proof (proj1 (forallb_forall _ _) Hv _ Hin) as Hve.
    unfold valid_entry in Hve. simpl in Hve.
    destruct (PROVIDERS_get key) as [v| | |] eqn:E; try discriminate.
    exists v. split; [|split].
    + now apply PROVIDERS_get_registered.
    + now apply constructor_complete.
    + apply (in_map client_for) in Hin. unfold client_for at 1 in Hin. simpl in Hin.
      now rewrite E in Hin.
Qed.

Lemma createOAuth_builds_every_entry_witness :
  createOAuth (Some [("github", Example.config); ("discord", Example.config)])
  = Returns [("github", Instance (Example.instance github));
             ("discord", Instance (Example.instance discord))].
Proof.
  refine (proj1 (createOAuth_builds_every_entry
            [("github", Example.config); ("discord", Example.config)] _ _ _)).
  - discriminate.
  - repeat constructor; simpl; intuition discriminate.
  - reflexivity.
Defined.

Lemma createOAuth_entries_skip_valid pre :
  forall rest oauth,
    forallb valid_entry pre = true ->
    exists oauth',
      createOAuth_entries (pre ++ rest)%list oauth = createOAuth_entries rest oauth'.
Proof.
  induction pre as [|[key config] pre IH]; intros rest oauth Hv; simpl.
  - now exists oauth.
  - simpl in Hv. apply andb_true_iff in Hv as [Hv Hrest].
    unfold valid_entry in Hv. simpl in Hv.
    destruct (PROVIDERS_get key) as [v| | |]; try discriminate.
    rewrite (constructor_complete _ _ Hv). simpl. now apply IH.
Qed.

(** X8. [createOAuth] stops at the first entry it cannot build, whatever
    follows it: a name that is not registered gives a plain [Error] that
    quotes the name and lists the supported providers, and a registered
    name with an incomplete configuration gives the CONFIG_ERROR of that
    provider.  No client is returned. *)
Theorem createOAuth_stops_at_first_bad_entry
    (pre post : list (string * Config.t)) (key : string) (config : Config.t) :
  forallb valid_entry pre = true ->
  (PROVIDERS_get key = Unregistered ->
     createOAuth (Some (pre ++ (key, config) :: post)%list)
     = Throws (ThrowJs "Error"
         ("Unknown provider " ++ dquote ++ key ++ dquote
          ++ ". Supported providers: github, google, discord")))
  /\ (forall v, PROVIDERS_get key = RegisteredClass v ->
        complete config = false ->
        exists e,
          createOAuth (Some (pre ++ (key, config) :: post)%list) = Throws (ThrowOAuth e)
          /\ OAuthError.code e = Str "CONFIG_ERROR"
          /\ OAuthError.provider e = Str key).
Proof.
  intro Hv.
  destruct (createOAuth_entries_skip_valid pre ((key, config) :: post) [] Hv)
    as [oauth' Hskip].
  unfold createOAuth. rewrite Hskip. simpl. split.
  - intros ->. reflexivity.
  - intros v Hreg Hc. rewrite Hreg.
    rewrite (PROVIDERS_get_registered _ _ Hreg).
    destruct (constructor_incomplete (PROVIDERS v) config Hc) as [field ->]. eexists. split; [reflexivity|]. split; [reflexivity|].
    apply provider_new, name_nonempty.
Qed.

Lemma createOAuth_stops_at_first_bad_entry_witness :
  createOAuth (Some [("github", Example.config); ("gitlab", Example.config);
                     ("google", Example.config)])
  = Throws (ThrowJs "Error"
      ("Unknown provider " ++ dquote ++ "gitlab" ++ dquote
       ++ ". Supported providers: github, google, discord"))
  /\ exists e,
       createOAuth (Some [("github", Example.config);
                          ("google", {| Config.clientId := Str "client-2";
                                        Config.clientSecret := Str "s3cret";
                                        Config.redirectUri := Undefined;
                                        Config.scopes := None |})])
       = Throws (ThrowOAuth e)
       /\ OAuthError.code e = Str "CONFIG_ERROR"
       /\ OAuthError.provider e = Str "google".
Proof.
  split.
  - exact (proj1 (createOAuth_stops_at_first_bad_entry
             [("github", Example.config)] [("google", Example.config)]
             "gitlab" Example.config eq_refl) eq_refl).
  - exact (proj2 (createOAuth_stops_at_first_bad_entry
             [("github", Example.config)] [] "google"
             {| Config.clientId := Str "client-2"; Config.clientSecret := Str "s3cret";
                Config.redirectUri := Undefined; Config.scopes := None |} eq_refl)
             google eq_refl eq_refl).
Defined.



(** ** The request shapes *)

Lemma js_or_null (v : value) : null_or_present (v ||| Null).
Proof.
  unfold js_or, null_or_present. destruct (ToBoolean v) eqn:E; [now right | now left].
Qed.

(** X10. The first request shape that matches decides: a request with a
    parsed query is read from the query alone, whatever its [nextUrl],
    [url] and headers are; without one, a request with a [nextUrl] is read
    from it, whatever its [url] and headers are.  The instance plays no
    part. *)
Theorem _extractParams_first_shape_wins
    (parseUrl : UrlParser) (self self' : OAuthProvider.t) (req req' : Req.t) :
  (has_query req = true ->
     Req.query req' = Req.query req ->
     OAuthProvider._extractParams parseUrl self' req'
     = OAuthProvider._extractParams parseUrl self req)
  /\ (has_query req = false -> has_query req' = false ->
      forall sp, Req.nextUrl req = Some sp -> Req.nextUrl req' = Some sp ->
      OAuthProvider._extractParams parseUrl self' req'
      = OAuthProvider._extractParams parseUrl self req
      /\ OAuthProvider._extractParams parseUrl self req = Returns (params_of sp)).
Proof.
  unfold has_query, OAuthProvider._extractParams. split.
  - intros H E. rewrite E, H. reflexivity.
  - intros H H' sp E E'. rewrite H, H', E, E'. split; reflexivity.
Qed.

Lemma _extractParams_first_shape_wins_witness :
  OAuthProvider._extractParams Example.no_urls (Example.instance github)
    {| Req.query := Obj [("code", Str "c0de")];
       Req.nextUrl := Some [("code", "other")];
       Req.url := Str "/callback?code=third";
       Req.headers := Req.PlainHeaders (Obj [("host", Str "example.com")]) |}
  = OAuthProvider._extractParams Example.no_urls (Example.instance google)
      (Example.express [("code", Str "c0de")])
  /\ OAuthProvider._extractParams Example.no_urls (Example.instance google)
       {| Req.query := Undefined; Req.nextUrl := Some [("code", "c0de")];
          Req.url := Undefined; Req.headers := Req.PlainHeaders Undefined |}
     = Returns (params_of [("code", "c0de")]).
Proof.
  split.
  - exact (proj1 (_extractParams_first_shape_wins Example.no_urls
             (Example.instance google) (Example.instance github)
             (Example.express [("code", Str "c0de")])
             {| Req.query := Obj [("code", Str "c0de")];
                Req.nextUrl := Some [("code", "other")];
                Req.url := Str "/callback?code=third";
                Req.headers := Req.PlainHeaders (Obj [("host", Str "example.com")]) |})
             eq_refl eq_refl).
  - exact (proj2 (proj2 (_extractParams_first_shape_wins Example.no_urls
             (Example.instance google) (Example.instance google)
             {| Req.query := Undefined; Req.nextUrl := Some [("code", "c0de")];
                Req.url := Undefined; Req.headers := Req.PlainHeaders Undefined |}
             {| Req.query := Undefined; Req.nextUrl := Some [("code", "c0de")];
                Req.url := Undefined; Req.headers := Req.PlainHeaders Undefined |})
             eq_refl eq_refl [("code", "c0de")] eq_refl eq_refl)).
Defined.

(** X11. From a parsed query every parameter comes out as [null] or as a
    truthy value of the query: a missing key, an empty string, [0] or
    [false] all become [null], never [undefined]. *)
Theorem _extractParams_query_normalizes
    (parseUrl : UrlParser) (self : OAuthProvider.t) (req : Req.t) :
  has_query req = true ->
  exists p,
    OAuthProvider._extractParams parseUrl self req = Returns p
    /\ Forall null_or_present (params_fields p)
    /\ Params.code p = get_prop_opt (Req.query req) "code" ||| Null
    /\ Params.state p = get_prop_opt (Req.query req) "state" ||| Null
    /\ Params.error p = get_prop_opt (Req.query req) "error" ||| Null
    /\ Params.errorDescription p
       = get_prop_opt (Req.query req) "error_description" ||| Null.
Proof.
  unfold has_query, OAuthProvider._extractParams. intros ->.
  eexists. split; [reflexivity|].
  split; [|repeat split].
  unfold params_fields. simpl.
  repeat (apply Forall_cons; [apply js_or_null|]). apply Forall_nil.
Qed.

Lemma _extractParams_query_normalizes_witness :
  exists p,
    OAuthProvider._extractParams Example.no_urls (Example.instance github)
      (Example.express [("code", Str "c0de"); ("state", Str ""); ("error", Num 0)])
    = Returns p
    /\ p = {| Params.code := Str "c0de"; Params.state := Null;
              Params.error := Null; Params.errorDescription := Null |}.
Proof.
  destruct (_extractParams_query_normalizes Example.no_urls (Example.instance github)
              (Example.express [("code", Str "c0de"); ("state", Str ""); ("error", Num 0)])
              eq_refl)
    as (p & Hp & _ & Hc & Hs & He & Hd).
  exists p. split; [exact Hp|].
  destruct p; simpl in *; subst; reflexivity.
Defined.

(** X12. A request of none of the three shapes, and only such a request,
    makes [_extractParams] throw an [OAuthError]: INVALID_REQUEST; and
    [handleCallback] then throws it without any network request. *)
Theorem unsupported_request_shape
    (parseUrl : UrlParser) (self : OAuthProvider.t) (req : Req.t) :
  (recognized req = false ->
     OAuthProvider._extractParams parseUrl self req
       = Throws (ThrowOAuth (INVALID_REQUEST self))
     /\ OAuthError.code (INVALID_REQUEST self) = Str "INVALID_REQUEST"
     /\ forall net options log,
          OAuthProvider.handleCallback net parseUrl self req options log
          = (Throws (ThrowOAuth (INVALID_REQUEST self)), log))
  /\ (forall e,
        OAuthProvider._extractParams parseUrl self req = Throws (ThrowOAuth e) ->
        recognized req = false).
Proof.
  unfold recognized, has_query, OAuthProvider.handleCallback,
    OAuthProvider._extractParams, INVALID_REQUEST.
  destruct (ToBoolean (Req.query req) && typeof_object (Req.query req));
    [split; [discriminate | intros e H; discriminate]|].
  destruct (Req.nextUrl req); [split; [discriminate | intros e H; discriminate]|].
  destruct (ToBoolean (Req.url req)); simpl.
  - split; [discriminate|]. intros e. destruct (parseUrl _ _); discriminate.
  - split; [|reflexivity]. intros _. repeat split.
Qed.

Lemma unsupported_request_shape_witness :
  OAuthProvider.handleCallback Example.offline Example.no_urls (Example.instance github)
    {| Req.query := Str "code=c0de"; Req.nextUrl := None; Req.url := Str "";
       Req.headers := Req.PlainHeaders Undefined |}
    Options.empty []
  = (Throws (ThrowOAuth (INVALID_REQUEST (Example.instance github))), []).
Proof.
  exact (proj2 (proj2 (proj1 (unsupported_request_shape Example.no_urls
           (Example.instance github)
           {| Req.query := Str "code=c0de"; Req.nextUrl := None; Req.url := Str "";
              Req.headers := Req.PlainHeaders Undefined |}) eq_refl))
           Example.offline Options.empty []).
Defined.

(** X13. A request that only exposes a raw URL is parsed against the base
    [http://] followed by its host header, or by [localhost] when the
    header is missing or empty; an address the URL parser rejects ends in
    a [TypeError], not in an [OAuthError]. *)
Theorem _extractParams_raw_url
    (parseUrl : UrlParser) (self : OAuthProvider.t) (req : Req.t) :
  has_query req = false -> Req.nextUrl req = None -> ToBoolean (Req.url req) = true ->
  let base := "http://" ++ (if ToBoolean (host_header req)
                            then ToString (host_header req) else "localhost") in
  (forall sp, parseUrl (ToString (Req.url req)) base = Some sp ->
              OAuthProvider._extractParams parseUrl self req = Returns (params_of sp))
  /\ (parseUrl (ToString (Req.url req)) base = None ->
      OAuthProvider._extractParams parseUrl self req
      = Throws (ThrowJs "TypeError" "Invalid URL")).
Proof.
  unfold has_query, host_header, OAuthProvider._extractParams.
  intros -> -> ->. unfold js_or.
  destruct (Req.headers req) as [get|h].
  - destruct (ToBoolean (get "host")); simpl; split;
      try (intros sp ->; reflexivity); intros ->; reflexivity.
  - destruct (ToBoolean (get_prop_opt h "host")); simpl; split;
      try (intros sp ->; reflexivity); intros ->; reflexivity.
Qed.

Lemma _extractParams_raw_url_witness :
  OAuthProvider._extractParams
    (fun input base =>
       if base =? "http://localhost"
       then Some (URLSearchParams.parse (query_of input)) else None)
    (Example.instance github)
    {| Req.query := Undefined; Req.nextUrl := None;
       Req.url := Str "/auth/callback?code=c0de&state=5f0e";
       Req.headers := Req.PlainHeaders (Obj [("accept", Str "*/*")]) |}
  = Returns {| Params.code := Str "c0de"; Params.state := Str "5f0e";
               Params.error := Null; Params.errorDescription := Null |}.
Proof.
  exact (proj1 (_extractParams_raw_url
           (fun input base =>
              if base =? "http://localhost"
              then Some (URLSearchParams.parse (query_of input)) else None)
           (Example.instance github)
           {| Req.query := Undefined; Req.nextUrl := None;
              Req.url := Str "/auth/callback?code=c0de&state=5f0e";
              Req.headers := Req.PlainHeaders (Obj [("accept", Str "*/*")]) |}
           eq_refl eq_refl eq_refl)
           [("code", "c0de"); ("state", "5f0e")] eq_refl).
Defined.

(** ** The redirect URL, parameter by parameter *)

Lemma prefix_app (a b : string) : prefix a (a ++ b) = true.
Proof.
  induction a as [|c a IH]; simpl; [now destruct b|].
  destruct (ascii_dec c c); [exact IH | contradiction].
Qed.

Lemma append_assoc' (a b c : string) : (a ++ b) ++ c = a ++ b ++ c.
Proof. induction a as [|x a IH]; simpl; [reflexivity | now rewrite IH]. Qed.

(** X14. The URL [getRedirectUrl] returns starts with the authorization
    endpoint of the variant and a [?], and its query decodes to exactly:
    [client_id], [redirect_uri] (the configured value, whatever characters
    it holds), [response_type=code], [scope], and then [state] when, and
    only when, a truthy state is given. *)
Theorem getRedirectUrl_parameters (v : Variant) (self : OAuthProvider.t)
    (options : Options.t) :
  OAuthProvider.cls self = PROVIDERS v ->
  prefix (authorizationUrl (PROVIDERS v) ++ "?")
         (OAuthProvider.getRedirectUrl self options) = true
  /\ URLSearchParams.parse (query_of (OAuthProvider.getRedirectUrl self options))
     = ([("client_id", ToString (OAuthProvider.clientId self));
         ("redirect_uri", ToString (OAuthProvider.redirectUri self));
         ("response_type", "code");
         ("scope", join " " match Options.scopes options with
                            | Some l => l
                            | None => OAuthProvider.scopes self
                            end)]
        ++ (if ToBoolean (Options.state options)
            then [("state", ToString (Options.state options))] else []))%list.
Proof.
  intro Hcls. split.
  - unfold OAuthProvider.getRedirectUrl. rewrite Hcls, <- append_assoc'.
    apply prefix_app.
  - rewrite (query_of_getRedirectUrl v) by assumption.
    unfold OAuthProvider.redirectParams. rewrite Hcls.
    destruct v; simpl; destruct (ToBoolean (Options.state options)); reflexivity.
Qed.

Lemma getRedirectUrl_parameters_witness :
  URLSearchParams.parse (query_of
    (OAuthProvider.getRedirectUrl (Example.instance google) (Example.expecting "5f0e")))
  = [("client_id", "client-1");
     ("redirect_uri", "http://localhost:3000/auth/callback");
     ("response_type", "code");
     ("scope", "openid email profile");
     ("state", "5f0e")].
Proof.
  exact (proj2 (getRedirectUrl_parameters google (Example.instance google)
                  (Example.expecting "5f0e") eq_refl)).
Defined.

(** ** The request helper, header by header and branch by branch *)

Lemma assoc_obj_set {A} (k k' : string) (v : A) (l : list (string * A)) :
  assoc k (obj_set k' v l) = if k' =? k then Some v else assoc k l.
Proof.
  induction l as [|[k0 v0] l IH]; simpl.
  - reflexivity.
  - destruct (String.eqb_spec k0 k') as [->|Hne]; simpl.
    + destruct (k' =? k); reflexivity.
    + rewrite IH. destruct (String.eqb_spec k' k) as [->|Hne']; [|reflexivity].
      now rewrite (proj2 (String.eqb_neq k0 k) Hne).
Qed.

Lemma assoc_fold_obj_set {A} (k : string) (h : list (string * A)) :
  forall init,
    assoc k (fold_left (fun acc kv => obj_set (fst kv) (snd kv) acc) h init)
    = fold_left (fun acc kv => if fst kv =? k then Some (snd kv) else acc) h
                (assoc k init).
Proof.
  induction h as [|[k' v'] h IH]; intro init; simpl; [reflexivity|].
  now rewrite IH, assoc_obj_set.
Qed.

Lemma fold_binding_some {A} (k : string) (h : list (string * A)) :
  forall acc,
    fold_left (fun acc kv => if fst kv =? k then Some (snd kv) else acc) h acc
    = match fold_left (fun acc kv => if fst kv =? k then Some (snd kv) else acc) h None with
      | Some v => Some v
      | None => acc
      end.
Proof.
  induction h as [|[k' v'] h IH]; intros acc; simpl; [reflexivity|].
  destruct (k' =? k).
  - rewrite (IH (Some v')). now destruct (fold_left _ h None).
  - now apply IH.
Qed.

Lemma assoc_merge {A} (k : string) (h init : list (string * A)) :
  assoc k (fold_left (fun acc kv => obj_set (fst kv) (snd kv) acc) h init)
  = match last_binding k h with
    | Some v => Some v
    | None => assoc k init
    end.
Proof.
  rewrite assoc_fold_obj_set. unfold last_binding.
  apply fold_binding_some.
Qed.

(** X15. Every call of [request] issues exactly one [fetch], to the given
    address with the caller's method and body.  Each header of the caller
    is sent with its last given value; [User-Agent] is [unioauth] unless
    the caller gives one; no other header is added. *)
Theorem request_sends_caller_request
    (net : Network) (url : string) (options : RequestInit) (log : list FetchRequest) :
  exists rq,
    snd (request net url options log) = (log ++ [rq])%list
    /\ rq_url rq = url
    /\ rq_method rq = method options
    /\ rq_body rq = body options
    /\ forall k,
         assoc k (rq_headers rq)
         = match last_binding k (headers options) with
           | Some v => Some v
           | None => if k =? "User-Agent" then Some "unioauth" else None
           end.
Proof.
  exists (sent_request url options).
  split; [apply request_log|]. repeat split.
  intro k. unfold sent_request, with_user_agent. simpl.
  rewrite assoc_merge. simpl.
  destruct (last_binding k (headers options)); [reflexivity|].
  rewrite String.eqb_sym. reflexivity.
Qed.



Lemma lookup_assoc (k : string) (l : list (string * value)) : lookup k l = assoc k l.
Proof. induction l as [|[k' v] l IH]; simpl; [reflexivity | now rewrite IH]. Qed.

Lemma last_binding_map {A B} (f : A -> B) (k : string) (l : list (string * A)) :
  forall acc,
    fold_left (fun acc kv => if fst kv =? k then Some (snd kv) else acc)
              (map (fun kv => (fst kv, f (snd kv))) l) (option_map f acc)
    = option_map f
        (fold_left (fun acc kv => if fst kv =? k then Some (snd kv) else acc) l acc).
Proof.
  induction l as [|[k' v] l IH]; intro acc; simpl; [reflexivity|].
  destruct (k' =? k); [apply (IH (Some v)) | apply IH].
Qed.

Lemma last_binding_map' {A B} (f : A -> B) (k : string) (l : list (string * A)) :
  last_binding k (map (fun kv => (fst kv, f (snd kv))) l)
  = option_map f (last_binding k l).
Proof. exact (last_binding_map f k l None). Qed.

Lemma fold_obj_set_map {A B} (f : A -> B) (l : list (string * A)) :
  forall init : list (string * B),
    fold_left (fun acc kv => obj_set (fst kv) (f (snd kv)) acc) l init
    = fold_left (fun acc kv => obj_set (fst kv) (snd kv) acc)
                (map (fun kv => (fst kv, f (snd kv))) l) init.
Proof. induction l as [|[k v] l IH]; intro init; simpl; [reflexivity | apply IH]. Qed.

(** [Object.fromEntries] keeps the last value of every key. *)
Lemma fromEntries_get pairs k :
  get_prop (fromEntries pairs) k
  = Returns match last_binding k pairs with Some v => Str v | None => Undefined end.
Proof.
  unfold fromEntries. simpl. rewrite lookup_assoc, fold_obj_set_map, assoc_merge.
  rewrite last_binding_map'. simpl.
  now destruct (last_binding k pairs).
Qed.

(** X17. A successful response that is not declared as JSON and does not
    parse as JSON is read as a form-encoded body: for the text that
    serializes a list of pairs of well-formed strings, [request] returns
    an object in which every key of the list reads as its value (the last
    one, for a repeated key), and every other key that is not a property
    of [Object.prototype] reads as [undefined]. *)
Theorem request_form_encoded_body
    (net : Network) (url : string) (options : RequestInit) (log : list FetchRequest)
    (r : Response) (pairs : URLSearchParams.t) :
  net log (sent_request url options) = Resolves r ->
  ok r = true ->
  json_content_type r = false ->
  json r = None ->
  well_formed_pairs pairs = true ->
  text r = URLSearchParams.toString pairs ->
  exists data,
    request net url options log = (Returns data, (log ++ [sent_request url options])%list)
    /\ (forall k v, last_binding k pairs = Some v -> get_prop data k = Returns (Str v))
    /\ (forall k, last_binding k pairs = None -> inherited k = false ->
                  get_prop data k = Returns Undefined).
Proof.
  intros Hnet Hok Hct Hjson _ Htext.
  exists (fromEntries pairs). split; [|split].
  - unfold request, bind at 1, try_catch, fetch. rewrite Hnet.
    unfold json_content_type in Hct. rewrite Hct, Hjson, Htext, parse_toString.
    unfold bind, ret. now rewrite Hok.
  - intros k v Hk. now rewrite fromEntries_get, Hk.
  - intros k Hk _. now rewrite fromEntries_get, Hk.
Qed.

Lemma request_form_encoded_body_witness :
  exists data,
    request
      (Example.serving
         (Resolves {| status := 200;
                      content_type := Some "application/x-www-form-urlencoded; charset=utf-8";
                      text := "access_token=gho_16C7e42F&scope=read%3Auser&token_type=bearer";
                      json := None |})
         Example.offline_result)
      "https://github.com/login/oauth/access_token"
      (token_request (Example.instance github) (Str "c0de")) []
    = (Returns data,
       [sent_request "https://github.com/login/oauth/access_token"
          (token_request (Example.instance github) (Str "c0de"))])
    /\ get_prop data "access_token" = Returns (Str "gho_16C7e42F")
    /\ get_prop data "scope" = Returns (Str "read:user")
    /\ get_prop data "error" = Returns Undefined.
Proof.
  destruct (request_form_encoded_body
              (Example.serving
                 (Resolves {| status := 200;
                              content_type :=
                                Some "application/x-www-form-urlencoded; charset=utf-8";
                              text := "access_token=gho_16C7e42F&scope=read%3Auser&token_type=bearer";
                              json := None |})
                 Example.offline_result)
              "https://github.com/login/oauth/access_token"
              (token_request (Example.instance github) (Str "c0de")) []
              {| status := 200;
                 content_type := Some "application/x-www-form-urlencoded; charset=utf-8";
                 text := "access_token=gho_16C7e42F&scope=read%3Auser&token_type=bearer";
                 json := None |}
              [("access_token", "gho_16C7e42F"); ("scope", "read:user");
               ("token_type", "bearer")]
              eq_refl eq_refl eq_refl eq_refl eq_refl eq_refl)
    as (data & Hreq & Hbound & Hfree).
  exists data. split; [exact Hreq|].
  split; [exact (Hbound "access_token" _ eq_refl)|].
  split; [exact (Hbound "scope" _ eq_refl) | exact (Hfree "error" eq_refl eq_refl)].
Defined.

(** X18. How [request] reads a body.  A response declared as JSON whose
    body does not parse ends in a [SyntaxError], which is not an
    [OAuthError], whatever its status; a response not declared as JSON
    never fails on its body, so with a success status it always returns. *)
Theorem request_body_negotiation
    (net : Network) (url : string) (options : RequestInit) (log : list FetchRequest)
    (r : Response) :
  net log (sent_request url options) = Resolves r ->
  (json_content_type r = true -> json r = None ->
     request net url options log
     = (Throws (ThrowJs "SyntaxError" "Unexpected token in JSON"),
        (log ++ [sent_request url options])%list))
  /\ (json_content_type r = false -> ok r = true ->
      request net url options log
      = (Returns match json r with
                 | Some v => v
                 | None => fromEntries (URLSearchParams.parse (text r))
                 end,
         (log ++ [sent_request url options])%list))
  /\ (forall v, json r = Some v -> ok r = true ->
        request net url options log = (Returns v, (log ++ [sent_request url options])%list)).
Proof.
  intro Hnet. unfold json_content_type.
  split; [|split].
  - intros Hct Hjson. unfold request, bind at 1, try_catch, fetch.
    rewrite Hnet, Hct, Hjson. reflexivity.
  - intros Hct Hok. unfold request, bind at 1, try_catch, fetch.
    rewrite Hnet, Hct. unfold bind. destruct (json r); simpl; now rewrite Hok.
  - intros v Hjson Hok. unfold request, bind at 1, try_catch, fetch.
    rewrite Hnet, Hjson. unfold bind. destruct (includes _ _); simpl; now rewrite Hok.
Qed.

Lemma request_body_negotiation_witness :
  request
    (Example.serving Example.offline_result
       (Resolves {| status := 502; content_type := Some "application/json";
                    text := "<html>Bad Gateway</html>"; json := None |}))
    "https://api.github.com/user" (github_request (Str "gho_16C7e42F")) []
  = (Throws (ThrowJs "SyntaxError" "Unexpected token in JSON"),
     [sent_request "https://api.github.com/user" (github_request (Str "gho_16C7e42F"))]).
Proof.
  exact (proj1 (request_body_negotiation
           (Example.serving Example.offline_result
              (Resolves {| status := 502; content_type := Some "application/json";
                           text := "<html>Bad Gateway</html>"; json := None |}))
           "https://api.github.com/user" (github_request (Str "gho_16C7e42F")) []
           {| status := 502; content_type := Some "application/json";
              text := "<html>Bad Gateway</html>"; json := None |} eq_refl)
           eq_refl eq_refl).
Defined.

(** ** Requests of the exchange, of the profile fetches and of the callback *)

Lemma bind_snd {A B} (m : M A) (k : A -> M B) log :
  snd (bind m k log)
  = match m log with
    | (Returns a, l) => snd (k a l)
    | (Throws _, l) => l
    end.
Proof. unfold bind. now destruct (m log) as [[a|t] l]. Qed.

Ltac no_io_seq :=
  repeat first
    [ apply no_io_ret | apply no_io_throw | apply no_io_lift
    | apply no_io_bind; [|intro] ].

Lemma _exchangeCode_log net self code log :
  snd (OAuthProvider._exchangeCode net self code log)
  = (log ++ [sent_request (tokenUrl (OAuthProvider.cls self))
               (token_request self code)])%list.
Proof.
  rewrite _exchangeCode_unfold, bind_snd_no_io; [apply request_log|].
  intro data. apply no_io_bind; [apply no_io_lift|]. intro err.
  apply no_io_if.
  - no_io_seq.
  - apply no_io_bind; [apply no_io_lift|]. intro tok.
    apply no_io_if; [apply no_io_throw | apply no_io_ret].
Qed.

(** X19. [_exchangeCode] issues exactly one request, whatever the outcome:
    a POST to the token endpoint of the class, announced as form-encoded
    and asking for JSON, whose body decodes to [client_id],
    [client_secret], [code], [redirect_uri] and
    [grant_type=authorization_code], in that order, with the values of
    the instance. *)
Theorem _exchangeCode_sends_one_form_post
    (net : Network) (self : OAuthProvider.t) (code : value) (log : list FetchRequest) :
  exists rq body,
    snd (OAuthProvider._exchangeCode net self code log) = (log ++ [rq])%list
    /\ rq_url rq = tokenUrl (OAuthProvider.cls self)
    /\ rq_method rq = Some "POST"
    /\ assoc "Content-Type" (rq_headers rq) = Some "application/x-www-form-urlencoded"
    /\ assoc "Accept" (rq_headers rq) = Some "application/json"
    /\ rq_body rq = Some body
    /\ URLSearchParams.parse body
       = [("client_id", ToString (OAuthProvider.clientId self));
          ("client_secret", ToString (OAuthProvider.clientSecret self));
          ("code", ToString code);
          ("redirect_uri", ToString (OAuthProvider.redirectUri self));
          ("grant_type", "authorization_code")].
Proof.
  exists (sent_request (tokenUrl (OAuthProvider.cls self)) (token_request self code)).
  exists (URLSearchParams.toString (URLSearchParams.of_record
            [("client_id", OAuthProvider.clientId self);
             ("client_secret", OAuthProvider.clientSecret self);
             ("code", code);
             ("redirect_uri", OAuthProvider.redirectUri self);
             ("grant_type", Str "authorization_code")])).
  split; [apply _exchangeCode_log|].
  do 5 (split; [reflexivity|]). exact (parse_toString _).
Qed.

Lemma fetchUser_log_single net url options (k : value -> M User.t) log :
  (forall profile, no_io (k profile)) ->
  snd (bind (request net url options) k log) = (log ++ [sent_request url options])%list.
Proof. intro Hk. rewrite bind_snd_no_io by exact Hk. apply request_log. Qed.

Lemma fetchUser_log
    (v : Variant) (net : Network) (accessToken : value) (log : list FetchRequest) :
  exists rest,
    snd (fetchUser (PROVIDERS v) net accessToken log)
    = (log ++ sent_request (profile_url v) (profile_request v accessToken) :: rest)%list
    /\ (rest = []
        \/ (v = github
            /\ rest = [sent_request github_emails_url (github_request accessToken)])).
Proof.
  destruct v; simpl.
  - unfold GitHubProvider.fetchUser.
    fold (github_request accessToken). fold github_emails_url.
    rewrite bind_snd.
    pose proof (request_log net "https://api.github.com/user"
                  (github_request accessToken) log) as Hlog.
    destruct (request net "https://api.github.com/user" (github_request accessToken) log)
      as [[profile|t] l]; simpl in Hlog; subst l.
    + rewrite bind_snd. unfold lift at 1.
      destruct (get_prop profile "email") as [email|t].
      * destruct (ToBoolean email); simpl negb; cbv iota.
        -- exists []. split; [|now left].
           rewrite bind_snd_no_io; [reflexivity|]. intro. no_io_seq.
        -- exists [sent_request github_emails_url (github_request accessToken)].
           split; [|right; now split].
           rewrite bind_snd_no_io by (intro; no_io_seq).
           destruct (github_secondary_lookup net accessToken
                       (log ++ [sent_request "https://api.github.com/user"
                                  (github_request accessToken)])%list)
             as (email' & -> & _).
           simpl. now rewrite <- app_assoc.
      * exists []. split; [reflexivity | now left].
    + exists []. split; [reflexivity | now left].
  - exists []. split; [|now left].
    unfold GoogleProvider.fetchUser. fold (bearer_request accessToken).
    apply fetchUser_log_single. intro. no_io_seq.
  - exists []. split; [|now left].
    unfold DiscordProvider.fetchUser. fold (bearer_request accessToken).
    apply fetchUser_log_single. intro. no_io_seq.
Qed.


(** ** What a returned user always holds *)

Lemma obind_inv_returns {A B} (m : outcome A) (k : A -> outcome B) b :
  obind m k = Returns b -> exists a, m = Returns a /\ k a = Returns b.
Proof. destruct m as [a|t]; simpl; [eauto | discriminate]. Qed.

Lemma pick_email_null_or_present emails primary email :
  GitHubProvider.pick_email emails primary = Returns email -> null_or_present email.
Proof.
  unfold GitHubProvider.pick_email. intro H.
  apply obind_inv_returns in H as (first & _ & H). injection H as <-.
  apply js_or_null.
Qed.

Lemma github_email_null_or_present net accessToken email0 log email log' :
  (if negb (ToBoolean email0)
   then try_catch
          (emails <- request net "https://api.github.com/user/emails"
                       {| method := None;
                          headers := [("Authorization", "Bearer " ++ ToString accessToken);
                                      ("Accept", "application/vnd.github+json")];
                          body := None |} ;
           primary <- lift (array_find emails GitHubProvider.primary_and_verified) ;
           lift (GitHubProvider.pick_email emails primary))
          (fun _ => ret Null)
   else ret email0) log = (Returns email, log') ->
  null_or_present email.
Proof.
  destruct (ToBoolean email0) eqn:E; simpl.
  - intro H. injection H as <- _. now right.
  - unfold try_catch.
    match goal with
    | |- (match ?b log with _ => _ end) = _ -> _ => destruct (b log) as [[x|t] l] eqn:Hb
    end.
    + intro H. injection H as <- _.
      apply bind_inv_returns in Hb as (emails & l1 & _ & Hb).
      apply bind_inv_returns in Hb as (primary & l2 & _ & Hb).
      unfold lift in Hb. injection Hb as Hb _.
      exact (pick_email_null_or_present _ _ _ Hb).
    + intro H. injection H as <- _. now left.
Qed.

Lemma avatar_url_null_or_present profile avatar :
  DiscordProvider.avatar_url profile = Returns avatar -> null_or_present avatar.
Proof.
  unfold DiscordProvider.avatar_url. intro H.
  apply obind_inv_returns in H as (hash & _ & H).
  destruct (ToBoolean hash); [|injection H as <-; now left].
  apply obind_inv_returns in H as (animated & _ & H).
  apply obind_inv_returns in H as (id & _ & H).
  injection H as <-. right. reflexivity.
Qed.

(** The fields of the user a profile fetch returns. *)
Lemma fetchUser_returns (v : Variant) net accessToken log user log' :
  fetchUser (PROVIDERS v) net accessToken log = (Returns user, log') ->
  User.provider user = Str (name (PROVIDERS v))
  /\ is_string (User.id user) = true
  /\ null_or_present (User.email user)
  /\ null_or_present (User.avatar user)
  /\ not_nullish (User.raw user) = true
  /\ User.accessToken user = Undefined.
Proof.
  intro H. destruct v; simpl in H.
  - unfold GitHubProvider.fetchUser in H.
    apply bind_inv_returns in H as (profile & l1 & _ & H).
    apply bind_inv_returns in H as (email0 & l2 & He0 & H).
    apply bind_inv_returns in H as (email & l3 & He & H).
    apply github_email_null_or_present in He.
    invert_returns H. injection H as <- _. simpl.
    unfold lift in He0. injection He0 as He0 _.
    repeat split; try assumption; try apply js_or_null.
    destruct profile; try discriminate; reflexivity.
  - unfold GoogleProvider.fetchUser in H.
    apply bind_inv_returns in H as (profile & l1 & _ & H).
    apply bind_inv_returns in H as (id & l2 & Hid & H).
    invert_returns H. injection H as <- _. simpl.
    unfold lift in Hid. injection Hid as Hid _.
    repeat split; try apply js_or_null.
    destruct profile; try discriminate; reflexivity.
  - unfold DiscordProvider.fetchUser in H.
    apply bind_inv_returns in H as (profile & l1 & _ & H).
    apply bind_inv_returns in H as (avatar & l2 & Hav & H).
    apply bind_inv_returns in H as (id & l3 & Hid & H).
    invert_returns H. injection H as <- _. simpl.
    unfold lift in Hav, Hid. injection Hav as Hav _. injection Hid as Hid _.
    apply avatar_url_null_or_present in Hav.
    repeat split; try assumption; try apply js_or_null.
    destruct profile; try discriminate; reflexivity.
Qed.

(** X21. In the user that the profile fetch of any variant returns,
    [email] and [avatar] are each [null] or a non-empty value, never
    [undefined] or an empty string; [raw] is the profile the provider
    sent; and there is no [accessToken] yet. *)
Theorem fetchUser_normalizes_missing_fields
    (v : Variant) (net : Network) (accessToken : value)
    (log : list FetchRequest) (user : User.t) (log' : list FetchRequest) :
  fetchUser (PROVIDERS v) net accessToken log = (Returns user, log') ->
  null_or_present (User.email user)
  /\ null_or_present (User.avatar user)
  /\ not_nullish (User.raw user) = true
  /\ User.accessToken user = Undefined.
Proof.
  intro H. apply fetchUser_returns in H as (_ & _ & He & Ha & Hr & Ht).
  repeat split; assumption.
Qed.

Lemma fetchUser_normalizes_missing_fields_witness :
  exists user,
    fetchUser (PROVIDERS github) Example.github_ok (Str "gho_16C7e42F") []
    = (Returns user,
       [sent_request "https://api.github.com/user" (github_request (Str "gho_16C7e42F"))])
    /\ null_or_present (User.email user)
    /\ null_or_present (User.avatar user)
    /\ not_nullish (User.raw user) = true
    /\ User.accessToken user = Undefined.
Proof.
  eexists. split; [vm_compute; reflexivity|].
  exact (fetchUser_normalizes_missing_fields github Example.github_ok
           (Str "gho_16C7e42F") [] _
           [sent_request "https://api.github.com/user"
              (github_request (Str "gho_16C7e42F"))]
           eq_refl).
Defined.

(** ** The callback as a whole *)

Lemma _exchangeCode_returns net self code log data log' :
  OAuthProvider._exchangeCode net self code log = (Returns data, log') ->
  exists tok, get_prop data "access_token" = Returns tok /\ ToBoolean tok = true.
Proof.
  rewrite _exchangeCode_unfold. intro H.
  apply bind_inv_returns in H as (d & l1 & _ & H).
  apply bind_inv_returns in H as (err & l2 & _ & H).
  destruct (ToBoolean err).
  - apply bind_inv_returns in H as (x & l3 & _ & H). discriminate.
  - apply bind_inv_returns in H as (tok & l3 & Htok & H).
    unfold lift in Htok. injection Htok as Htok _.
    destruct (ToBoolean tok) eqn:E; simpl in H; [|discriminate].
    injection H as <- _. eauto.
Qed.

(** X22. [handleCallback] returns no partial user: on an instance of one
    of the three variants, whatever it returns carries the name of the
    variant as [provider], a string [id], a truthy [accessToken], and an
    [email] and an [avatar] that are each [null] or non-empty. *)
Theorem handleCallback_returns_complete_user
    (v : Variant) (net : Network) (parseUrl : UrlParser) (self : OAuthProvider.t)
    (req : Req.t) (options : Options.t)
    (log : list FetchRequest) (user : User.t) (log' : list FetchRequest) :
  OAuthProvider.cls self = PROVIDERS v ->
  OAuthProvider.handleCallback net parseUrl self req options log = (Returns user, log') ->
  User.provider user = Str (name (PROVIDERS v))
  /\ is_string (User.id user) = true
  /\ ToBoolean (User.accessToken user) = true
  /\ null_or_present (User.email user)
  /\ null_or_present (User.avatar user).
Proof.
  intros Hcls H. unfold OAuthProvider.handleCallback in H.
  apply bind_inv_returns in H as (params & l0 & _ & H).
  destruct (ToBoolean (Params.error params)); [discriminate|].
  destruct (negb (ToBoolean (Params.code params))); [discriminate|].
  apply bind_inv_returns in H as (u0 & l1 & _ & H).
  apply bind_inv_returns in H as (data & l2 & Hex & H).
  apply bind_inv_returns in H as (tok & l3 & Htok & H).
  apply bind_inv_returns in H as (fetched & l4 & Hfetch & H).
  apply bind_inv_returns in H as (tok' & l5 & Htok' & H).
  injection H as <- _.
  unfold lift in Htok'. injection Htok' as Htok' _.
  apply _exchangeCode_returns in Hex as (t & Ht & Htruthy).
  rewrite Hcls in Hfetch.
  apply fetchUser_returns in Hfetch as (Hp & Hid & He & Ha & _ & _).
  simpl. repeat split; try assumption. congruence.
Qed.

Lemma handleCallback_returns_complete_user_witness :
  exists user,
    OAuthProvider.handleCallback Example.github_ok Example.no_urls
      (Example.instance github) (Example.express [("code", Str "c0de")]) Options.empty []
    = (Returns user,
       [sent_request (tokenUrl (PROVIDERS github))
          (token_request (Example.instance github) (Str "c0de"));
        sent_request "https://api.github.com/user" (github_request (Str "gho_16C7e42F"))])
    /\ User.provider user = Str "github"
    /\ is_string (User.id user) = true
    /\ ToBoolean (User.accessToken user) = true
    /\ null_or_present (User.email user)
    /\ null_or_present (User.avatar user).
Proof.
  eexists. split; [vm_compute; reflexivity|].
  exact (handleCallback_returns_complete_user github Example.github_ok Example.no_urls
           (Example.instance github)
           (Example.express [("code", Str "c0de")]) Options.empty [] _
           [sent_request (tokenUrl (PROVIDERS github))
              (token_request (Example.instance github) (Str "c0de"));
            sent_request "https://api.github.com/user"
              (github_request (Str "gho_16C7e42F"))]
           eq_refl eq_refl).
Defined.

(** X23. Whatever the outcome, the requests of one [handleCallback] on an
    instance of one of the three variants are: none; or the token request
    alone; or the token request followed by the requests of the profile
    fetch, one for Google and Discord and one or two for GitHub.  The
    token request always comes first and there are never more than
    three. *)
Theorem handleCallback_requests
    (v : Variant) (net : Network) (parseUrl : UrlParser) (self : OAuthProvider.t)
    (req : Req.t) (options : Options.t) (log : list FetchRequest) :
  OAuthProvider.cls self = PROVIDERS v ->
  exists issued,
    snd (OAuthProvider.handleCallback net parseUrl self req options log)
    = (log ++ issued)%list
    /\ (length issued <= 3)%nat
    /\ (issued = []
        \/ exists code profile_requests,
             issued = sent_request (tokenUrl (PROVIDERS v)) (token_request self code)
                      :: profile_requests
             /\ (profile_requests = []
                 \/ exists tok rest,
                      profile_requests
                      = sent_request (profile_url v) (profile_request v tok) :: rest
                      /\ (rest = []
                          \/ (v = github
                              /\ rest = [sent_request github_emails_url
                                           (github_request tok)])))).
Proof.
  intro Hcls.
  assert (Hnone : forall l : list FetchRequest,
            exists issued : list FetchRequest,
              l = (l ++ issued)%list /\ (length issued <= 3)%nat
              /\ (issued = []
                  \/ exists code profile_requests,
                       issued = sent_request (tokenUrl (PROVIDERS v))
                                  (token_request self code) :: profile_requests
                       /\ (profile_requests = []
                           \/ exists tok rest,
                                profile_requests
                                = sent_request (profile_url v) (profile_request v tok)
                                  :: rest
                                /\ (rest = []
                                    \/ (v = github
                                        /\ rest = [sent_request github_emails_url
                                                     (github_request tok)]))))).
  { intro l. exists []. rewrite app_nil_r. split; [reflexivity|].
    split; [simpl; lia | now left]. }
  unfold OAuthProvider.handleCallback. rewrite bind_snd. unfold lift at 1.
  destruct (OAuthProvider._extractParams parseUrl self req) as [params|t];
    [|apply Hnone].
  destruct (ToBoolean (Params.error params)); [apply Hnone|].
  destruct (negb (ToBoolean (Params.code params))); [apply Hnone|].
  rewrite bind_snd.
  assert (Hcheck : exists o,
            (if ToBoolean (Options.state options)
             then lift (validateState (Options.state options) (Params.state params))
             else ret tt) log = (o, log)).
  { destruct (ToBoolean (Options.state options)); eexists; reflexivity. }
  destruct Hcheck as [o ->]. destruct o as [[]|t]; [|apply Hnone].
  rewrite bind_snd.
  pose proof (_exchangeCode_log net self (Params.code params) log) as Hex.
  destruct (OAuthProvider._exchangeCode net self (Params.code params) log)
    as [[data|t] l1]; simpl in Hex; subst l1; rewrite Hcls.
  - rewrite bind_snd. unfold lift at 1.
    destruct (get_prop data "access_token") as [tok|t].
    + rewrite bind_snd.
      destruct (fetchUser_log v net tok
                  (log ++ [sent_request (tokenUrl (PROVIDERS v))
                             (token_request self (Params.code params))])%list)
        as (rest & Hlog & Hrest).
      destruct (fetchUser (PROVIDERS v) net tok _) as [[user|t] l2];
        simpl in Hlog; subst l2.
      * rewrite bind_snd_no_io by (intro; no_io_seq). simpl.
        eexists. rewrite <- app_assoc. split; [reflexivity|]. split.
        -- destruct Hrest as [-> | [_ ->]]; simpl; lia.
        -- right. do 2 eexists. split; [reflexivity|]. right. eauto.
      * eexists. rewrite <- app_assoc. split; [reflexivity|]. split.
        -- destruct Hrest as [-> | [_ ->]]; simpl; lia.
        -- right. do 2 eexists. split; [reflexivity|]. right. eauto.
    + eexists. split; [reflexivity|]. split; [simpl; lia|].
      right. do 2 eexists. split; [reflexivity | now left].
  - eexists. split; [reflexivity|]. split; [simpl; lia|].
    right. do 2 eexists. split; [reflexivity | now left].
Qed.

Lemma handleCallback_requests_witness :
  exists issued,
    snd (OAuthProvider.handleCallback Example.github_ok Example.no_urls
           (Example.instance github)
           (Example.express [("code", Str "c0de")]) Options.empty [])
    = issued
    /\ (length issued <= 3)%nat.
Proof.
  destruct (handleCallback_requests github Example.github_ok Example.no_urls
              (Example.instance github)
              (Example.express [("code", Str "c0de")]) Options.empty [] eq_refl)
    as (issued & Hlog & Hlen & _).
  exists issued. split; assumption.
Defined.

(** ** Failures inside the exchange and the profile fetches *)








(** X26. A profile response whose body is the JSON value [null] makes the
    profile fetch of every variant fail with a [TypeError] of the
    language, not with an [OAuthError], after its one request. *)
Theorem fetchUser_null_profile
    (v : Variant) (net : Network) (accessToken : value)
    (log log1 : list FetchRequest) :
  request net (profile_url v) (profile_request v accessToken) log = (Returns Null, log1) ->
  exists msg,
    fetchUser (PROVIDERS v) net accessToken log = (Throws (ThrowJs "TypeError" msg), log1).
Proof.
  intro Hreq. destruct v; simpl in *.
  - unfold GitHubProvider.fetchUser. fold (github_request accessToken).
    run Hreq. eexists. reflexivity.
  - unfold GoogleProvider.fetchUser. fold (bearer_request accessToken).
    run Hreq. eexists. reflexivity.
  - unfold DiscordProvider.fetchUser. fold (bearer_request accessToken).
    fold discord_profile_url. run Hreq. eexists. reflexivity.
Qed.

Lemma fetchUser_null_profile_witness :
  exists msg,
    fetchUser (PROVIDERS google)
      (Example.serving Example.offline_result (Example.json_response 200 Null))
      (Str "ya29.a0Af") []
    = (Throws (ThrowJs "TypeError" msg),
       [sent_request (profile_url google) (profile_request google (Str "ya29.a0Af"))]).
Proof.
  exact (fetchUser_null_profile google
           (Example.serving Example.offline_result (Example.json_response 200 Null))
           (Str "ya29.a0Af") []
           [sent_request (profile_url google) (profile_request google (Str "ya29.a0Af"))]
           eq_refl).
Defined.

(** X27. When the token request cannot be delivered, a callback that
    passed its checks ends in the NETWORK_ERROR of [request], as it is:
    the message names the token endpoint and the cause, the request is
    not repeated and no profile request follows. *)
Theorem handleCallback_token_transport_failure
    (net : Network) (parseUrl : UrlParser) (self : OAuthProvider.t) (req : Req.t)
    (options : Options.t) (params : Params.t) (log : list FetchRequest) (cause : string) :
  OAuthProvider._extractParams parseUrl self req = Returns params ->
  ToBoolean (Params.error params) = false ->
  ToBoolean (Params.code params) = true ->
  (ToBoolean (Options.state options) = false
   \/ validateState (Options.state options) (Params.state params) = Returns tt) ->
  net log (sent_request (tokenUrl (OAuthProvider.cls self))
             (token_request self (Params.code params))) = Rejects cause ->
  OAuthProvider.handleCallback net parseUrl self req options log
  = (Throws (ThrowOAuth (OAuthError.new
       (Str ("Network request to " ++ tokenUrl (OAuthProvider.cls self)
             ++ " failed: " ++ cause))
       Null (Str "NETWORK_ERROR"))),
     (log ++ [sent_request (tokenUrl (OAuthProvider.cls self))
                (token_request self (Params.code params))])%list).
Proof.
  intros Hx He Hc Hs Hnet.
  rewrite (handleCallback_extracted _ _ _ _ _ _ _ Hx), He, Hc. simpl.
  assert (Hcheck : (if ToBoolean (Options.state options)
                    then lift (validateState (Options.state options) (Params.state params))
                    else ret tt) log = (Returns tt, log)).
  { destruct Hs as [-> | Hv]; [reflexivity|].
    destruct (ToBoolean (Options.state options)); [|reflexivity].
    unfold lift. now rewrite Hv. }
  run Hcheck. rewrite _exchangeCode_unfold.
  pose proof (request_rejected _ _ _ _ _ Hnet) as Hreq.
  unfold bind at 1. unfold bind at 1. now rewrite Hreq.
Qed.

Lemma handleCallback_token_transport_failure_witness :
  OAuthProvider.handleCallback Example.offline Example.no_urls (Example.instance discord)
    (Example.express [("code", Str "c0de"); ("state", Str "5f0e")])
    (Example.expecting "5f0e") []
  = (Throws (ThrowOAuth (OAuthError.new
       (Str "Network request to https://discord.com/api/oauth2/token failed: getaddrinfo ENOTFOUND")
       Null (Str "NETWORK_ERROR"))),
     [sent_request "https://discord.com/api/oauth2/token"
        (token_request (Example.instance discord) (Str "c0de"))]).
Proof.
  exact (handleCallback_token_transport_failure Example.offline Example.no_urls
           (Example.instance discord)
           (Example.express [("code", Str "c0de"); ("state", Str "5f0e")])
           (Example.expecting "5f0e")
           {| Params.code := Str "c0de"; Params.state := Str "5f0e";
              Params.error := Null; Params.errorDescription := Null |}
           [] "getaddrinfo ENOTFOUND"
           eq_refl eq_refl eq_refl (or_intror eq_refl) eq_refl).
Defined.


